(** * Obsidian MCP server: tool adapters and the search-and-scan workflow

    A shallow embedding of [src/main.py].  Every tool is an [async def] that
    builds one HTTP request (the workflow: one search request and then one
    fetch per candidate), inspects the response and returns a Python object.

    - Python objects coming out of [response.json()] and going back to the
      caller are values of [pyobj].
    - The remote services are an oracle [http : request -> outcome response]:
      a call either raises (transport failure, timeout, invalid URL) or
      answers with a response whose [json] may itself raise.
    - Effects are written to a trace: the requests sent, the loguru log
      lines, the [ctx.error] notifications and what is printed.  A tool is a
      computation [M pyobj], a pair of an outcome and the trace it left.
    - [try: ... except Exception as e: ...] is [try_except].

    Strings are byte strings holding UTF-8; [kw in s] on UTF-8 text is the
    byte-level substring test [py_in]. *)

From Stdlib Require Import String Ascii ZArith List Bool Lia.
From Stdlib Require Import DecimalString PrimFloat.
Import ListNotations.
Open Scope string_scope.
Open Scope Z_scope.

(** ** Python objects *)

#[local] Set Warnings "-register-all".

Inductive pyobj : Type :=
| PyNone
| PyBool (b : bool)
| PyInt (z : Z)
| PyFloat (f : float)
| PyStr (s : string)
| PyList (l : list pyobj)
| PyDict (kvs : list (string * pyobj)).

(** [type(o).__name__] *)
Definition type_name (o : pyobj) : string :=
  match o with
  | PyNone => "NoneType"
  | PyBool _ => "bool"
  | PyInt _ => "int"
  | PyFloat _ => "float"
  | PyStr _ => "str"
  | PyList _ => "list"
  | PyDict _ => "dict"
  end.

(** [bool(o)]: what [if not o] tests. *)
Definition truthy (o : pyobj) : bool :=
  match o with
  | PyNone => false
  | PyBool b => b
  | PyInt z => negb (z =? 0)
  | PyFloat f => negb (PrimFloat.is_zero f)
  | PyStr s => negb (String.eqb s "")
  | PyList l => match l with [] => false | _ => true end
  | PyDict kvs => match kvs with [] => false | _ => true end
  end.

(** [d[k]] lookup in a dict kept as an association list. *)
Fixpoint dict_lookup (k : string) (kvs : list (string * pyobj)) : option pyobj :=
  match kvs with
  | [] => None
  | (k', v) :: rest => if String.eqb k k' then Some v else dict_lookup k rest
  end.

Definition keys (kvs : list (string * pyobj)) : list string := map fst kvs.

(** [str(n)] for an [int]. *)
Definition str_int (z : Z) : string := NilZero.string_of_int (Z.to_int z).

(** [kw in s] for two [str]. *)
Fixpoint py_in (kw s : string) : bool :=
  String.prefix kw s ||
  match s with
  | EmptyString => false
  | String _ s' => py_in kw s'
  end.

(** Bytes [10xxxxxx] continue a UTF-8 code point. *)
Definition is_continuation (c : ascii) : bool :=
  let n := N_of_ascii c in ((128 <=? n) && (n <? 192))%N.

(** The characters of a [str], as iterating over it yields them. *)
Fixpoint code_points (s : string) : list string :=
  match s with
  | EmptyString => []
  | String c s' =>
      match s' with
      | EmptyString => [String c EmptyString]
      | String d _ =>
          if is_continuation d then
            match code_points s' with
            | cp :: rest => String c cp :: rest
            | [] => [String c EmptyString]
            end
          else String c EmptyString :: code_points s'
      end
  end.

(** ** Exceptions and outcomes *)

Inductive exn : Type :=
| AttributeError (msg : string)
| TypeError (msg : string)
| HTTPError (msg : string)         (* raised by the httpx client call *)
| JSONDecodeError (msg : string).  (* raised by response.json() *)

(** [str(e)] *)
Definition str_exn (e : exn) : string :=
  match e with
  | AttributeError msg | TypeError msg | HTTPError msg | JSONDecodeError msg => msg
  end.

Inductive outcome (A : Type) : Type :=
| Returns (a : A)
| Raises (e : exn).
Arguments Returns {A} a.
Arguments Raises {A} e.

(** [o.get(key, default)]: only a dict has [get]. *)
Definition py_get (o : pyobj) (key : string) (default : pyobj) : outcome pyobj :=
  match o with
  | PyDict kvs =>
      Returns (match dict_lookup key kvs with Some v => v | None => default end)
  | _ => Raises (AttributeError ("'" ++ type_name o ++ "' object has no attribute 'get'"))
  end.

(** The items [for item in o] goes through. *)
Definition py_iter (o : pyobj) : outcome (list pyobj) :=
  match o with
  | PyList l => Returns l
  | PyDict kvs => Returns (map PyStr (keys kvs))
  | PyStr s => Returns (map PyStr (code_points s))
  | _ => Raises (TypeError ("'" ++ type_name o ++ "' object is not iterable"))
  end.

(** ** HTTP *)

Inductive http_method : Type := GET | POST | PUT.

Record request : Type := mkRequest {
  method : http_method;
  url : string;
  headers : list (string * string);
  params : list (string * string);
  data : option string;
  timeout : Z
}.

Record response : Type := mkResponse {
  status_code : Z;
  text : string;
  json : outcome pyobj;
  response_url : string
}.

(** ** Effects *)

Inductive log_level : Type := DEBUG | WARNING | ERROR.

Inductive event : Type :=
| Sent (r : request)
| Logged (level : log_level) (msg : string)
| CtxError (msg : string)
| Printed (s : string).

Definition M (A : Type) : Type := (outcome A * list event)%type.

Definition ret {A} (a : A) : M A := (Returns a, []).

Definition bind {A B} (m : M A) (k : A -> M B) : M B :=
  match m with
  | (Returns a, t) => let (r, t') := k a in (r, (t ++ t')%list)
  | (Raises e, t) => (Raises e, t)
  end.

Definition lift {A} (o : outcome A) : M A := (o, []).

Definition emit (e : event) : M unit := (Returns tt, [e]).

(** [try: body except Exception as e: handler e] *)
Definition try_except {A} (body : M A) (handler : exn -> M A) : M A :=
  match body with
  | (Returns a, t) => (Returns a, t)
  | (Raises e, t) => let (r, t') := handler e in (r, (t ++ t')%list)
  end.

Declare Scope py_scope.
Delimit Scope py_scope with py.
Notation "x <- m ;; k" := (bind m (fun x => k))
  (at level 61, m at next level, right associativity) : py_scope.
Notation "m ;;; k" := (bind m (fun _ => k))
  (at level 61, right associativity) : py_scope.
Notation "'try' body 'except' handler" := (try_except body handler)
  (at level 10, body at level 200, handler at level 200) : py_scope.
Open Scope py_scope.

Definition result {A} (m : M A) : outcome A := fst m.
Definition trace {A} (m : M A) : list event := snd m.

(** The requests of a trace, in the order they were sent. *)
Fixpoint requests (t : list event) : list request :=
  match t with
  | [] => []
  | Sent r :: t' => r :: requests t'
  | _ :: t' => requests t'
  end.

(** The loguru lines of one level, in order. *)
Fixpoint logged (lvl : log_level) (t : list event) : list string :=
  match t with
  | [] => []
  | Logged l msg :: t' =>
      match lvl, l with
      | DEBUG, DEBUG | WARNING, WARNING | ERROR, ERROR => msg :: logged lvl t'
      | _, _ => logged lvl t'
      end
  | _ :: t' => logged lvl t'
  end.

(** ** Configuration read from the environment *)

Record config : Type := mkConfig {
  API_KEY : option string;
  BASE_URL_REST_LOCAL : option string;
  BASE_URL_OMNI_SEARCH : option string
}.

(** An [os.getenv] value inside an f-string. *)
Definition fstr_env (v : option string) : string :=
  match v with
  | Some s => s
  | None => "None"
  end.

(** ** The tools of [src/main.py] *)

Section Tools.

Variable cfg : config.
(** The two remote services, as seen through [httpx.AsyncClient]. *)
Variable http : request -> outcome response.
(** [repr] of a float, a list or a dict (Python built-in). *)
Variable py_repr : pyobj -> string.
(** [json.dumps(o, ensure_ascii=False, indent=2)] (Python built-in). *)
Variable json_dumps : pyobj -> string.

(** [str(o)], also what an f-string puts for [{o}]. *)
Definition py_str (o : pyobj) : string :=
  match o with
  | PyStr s => s
  | PyNone => "None"
  | PyBool true => "True"
  | PyBool false => "False"
  | PyInt z => str_int z
  | _ => py_repr o
  end.

(** [await client.get/post/put(..., timeout=10)]: the request leaves, and
    the call returns the response or raises. *)
Definition send (r : request) : M response :=
  (emit (Sent r) ;;; lift (http r)).

(** [response.json()] *)
Definition response_json (r : response) : M pyobj := lift (json r).

(** [logger.error(error_msg); await ctx.error(error_msg)] *)
Definition report (error_msg : string) : M unit :=
  (emit (Logged ERROR error_msg) ;;; emit (CtxError error_msg)).

Definition authorization : string * string :=
  ("Authorization", "Bearer " ++ fstr_env (API_KEY cfg)).

Definition error_dict (error_msg : string) : pyobj :=
  PyDict [("error", PyStr error_msg)].

(** *** get_status *)

Definition status_request : request :=
  let url := fstr_env (BASE_URL_REST_LOCAL cfg) in
  let headers := [authorization] in
  mkRequest GET url headers [] None 10.

Definition get_status : M pyobj :=
  try (
    response <- send status_request ;;
    if negb (status_code response =? 200) then
      let error_msg := "Error: Received status code "
                         ++ str_int (status_code response) ++ " from Obsidian API." in
      report error_msg ;;;
      ret (error_dict error_msg)
    else
      body <- response_json response ;;
      ret (PyStr (json_dumps body))
  ) except (fun e =>
    let error_msg := "Failed to get status: " ++ str_exn e in
    report error_msg ;;;
    ret (error_dict error_msg)).

(** *** omni_search *)

Definition omni_request (q : string) : request :=
  let url := fstr_env (BASE_URL_OMNI_SEARCH cfg) ++ "/search" in
  mkRequest GET url [] [("q", q)] None 10.

Definition omni_search (q : string) : M pyobj :=
  try (
    response <- send (omni_request q) ;;
    emit (Printed (response_url response)) ;;;
    if negb (status_code response =? 200) then
      let error_msg := "Error: Received status code "
                         ++ str_int (status_code response) ++ " from Omni Search." in
      report error_msg ;;;
      ret (PyList [error_dict error_msg])
    else
      body <- response_json response ;;
      ret (PyStr (json_dumps body))
  ) except (fun e =>
    let error_msg := "Failed to perform Omni Search: " ++ str_exn e in
    report error_msg ;;;
    ret (PyList [error_dict error_msg])).

(** *** get_active_note *)

Definition active_request (as_json : bool) : request :=
  let url := fstr_env (BASE_URL_REST_LOCAL cfg) ++ "/active" in
  let headers :=
    if as_json
    then [authorization; ("Accept", "application/vnd.olrapi.note+json")]
    else [authorization] in
  mkRequest GET url headers [] None 10.

Definition get_active_note (as_json : bool) : M pyobj :=
  try (
    response <- send (active_request as_json) ;;
    if negb (status_code response =? 200) then
      let error_msg := "Error: Received status code "
                         ++ str_int (status_code response)
                         ++ " when retrieving active note." in
      report error_msg ;;;
      ret (error_dict error_msg)
    else if as_json then response_json response
    else ret (PyStr (text response))
  ) except (fun e =>
    let error_msg := "Failed to retrieve active note: " ++ str_exn e in
    report error_msg ;;;
    ret (error_dict error_msg)).

(** *** get_file *)

Definition accept (as_json : bool) : string * string :=
  ("Accept", if as_json then "application/vnd.olrapi.note+json" else "text/markdown").

Definition vault_url (filename : string) : string :=
  fstr_env (BASE_URL_REST_LOCAL cfg) ++ "/vault/" ++ filename.

Definition get_file_request (filename : string) (as_json : bool) : request :=
  let url := vault_url filename in
  let headers := [authorization; accept as_json] in
  mkRequest GET url headers [] None 10.

Definition newline : string := String (ascii_of_nat 10) EmptyString.

Definition get_file (filename : string) (as_json : bool) : M pyobj :=
  let url := vault_url filename in
  emit (Logged DEBUG ("Retrieving file from URL: " ++ url)) ;;;
  try (
    response <- send (get_file_request filename as_json) ;;
    if negb (status_code response =? 200) then
      let error_msg := "Error: Received status code "
                         ++ str_int (status_code response)
                         ++ " when retrieving file." ++ newline ++ " url: " ++ url in
      report error_msg ;;;
      ret (error_dict error_msg)
    else if as_json then response_json response
    else ret (PyStr (text response))
  ) except (fun e =>
    let error_msg := "Failed to retrieve file '" ++ filename ++ "': " ++ str_exn e in
    report error_msg ;;;
    ret (error_dict error_msg)).

(** *** update_file *)

Definition update_request (filename content : string) : request :=
  let url := vault_url filename in
  let headers := [authorization; ("Content-Type", "text/markdown")] in
  mkRequest PUT url headers [] (Some content) 10.

Definition updated_message (filename : string) : string :=
  "File '" ++ filename ++ "' updated successfully.".

Definition update_file (filename content : string) : M pyobj :=
  try (
    response <- send (update_request filename content) ;;
    if negb ((status_code response =? 200) || (status_code response =? 204)) then
      let error_msg := "Error: Received status code "
                         ++ str_int (status_code response) ++ " when updating file." in
      report error_msg ;;;
      ret (PyStr error_msg)
    else ret (PyStr (updated_message filename))
  ) except (fun e =>
    let error_msg := "Failed to update file '" ++ filename ++ "': " ++ str_exn e in
    report error_msg ;;;
    ret (PyStr error_msg)).

(** *** search_and_find_matching_file *)

Definition no_results_message : string := "検索結果がありませんでした。".

Definition no_match_message (match_keyword : string) : string :=
  "指定されたキーワード '" ++ match_keyword
    ++ "' を含むファイルは見つかりませんでした。".

(** [item.get("file", {}).get("path")] *)
Definition item_path (item : pyobj) : outcome pyobj :=
  match py_get item "file" (PyDict []) with
  | Returns file => py_get file "path" PyNone
  | Raises e => Raises e
  end.

Definition file_request (as_json : bool) (filename : pyobj) : request :=
  let file_url := vault_url (py_str filename) in
  let file_headers := [authorization; accept as_json] in
  mkRequest GET file_url file_headers [] None 10.

(** [file_response.json() if as_json else file_response.text] *)
Definition file_content (as_json : bool) (file_response : response) : outcome pyobj :=
  if as_json then json file_response else Returns (PyStr (text file_response)).

(** The body of [for item in results:], and after the last item the
    [return] that follows the loop.  The keyword is looked for in
    [str(content) if as_json else content]; without [as_json] the content
    is a [str] already, and [str] of a [str] is that [str]. *)
Fixpoint scan (match_keyword : string) (as_json : bool) (items : list pyobj)
  : M pyobj :=
  match items with
  | [] => ret (PyDict [("message", PyStr (no_match_message match_keyword))])
  | item :: rest =>
      filename <- lift (item_path item) ;;
      if negb (truthy filename) then scan match_keyword as_json rest
      else
        file_response <- send (file_request as_json filename) ;;
        if negb (status_code file_response =? 200) then
          emit (Logged WARNING ("ファイル取得失敗: " ++ py_str filename)) ;;;
          scan match_keyword as_json rest
        else
          content <- lift (file_content as_json file_response) ;;
          if py_in match_keyword (py_str content)
          then ret (PyDict [("filename", filename); ("content", content)])
          else scan match_keyword as_json rest
  end.

Definition search_request (query content_type : string) : request :=
  let search_url := fstr_env (BASE_URL_REST_LOCAL cfg) ++ "/search" in
  let headers := [authorization; ("Content-Type", content_type)] in
  mkRequest POST search_url headers [] (Some query) 10.

Definition search_and_find_matching_file
  (query match_keyword content_type : string) (as_json : bool) : M pyobj :=
  try (
    search_response <- send (search_request query content_type) ;;
    if negb (status_code search_response =? 200) then
      let error_msg := "Search error: status code "
                         ++ str_int (status_code search_response) in
      report error_msg ;;;
      ret (error_dict error_msg)
    else
      results <- response_json search_response ;;
      if negb (truthy results) then
        ret (PyDict [("message", PyStr no_results_message)])
      else
        items <- lift (py_iter results) ;;
        scan match_keyword as_json items
  ) except (fun e =>
    let error_msg := "search_and_find_matching_file エラー: " ++ str_exn e in
    report error_msg ;;;
    ret (error_dict error_msg)).

End Tools.

(** The [except] clause of [search_and_find_matching_file]. *)
Definition workflow_handler (e : exn) : M pyobj :=
  let error_msg := "search_and_find_matching_file エラー: " ++ str_exn e in
  (report error_msg ;;; ret (error_dict error_msg)).

(** ** Search result items, as data *)

(** An item the workflow can read: a dict whose ["file"] entry, when there
    is one, is a dict. *)
Definition well_formed (item : pyobj) : bool :=
  match item with
  | PyDict kvs =>
      match dict_lookup "file" kvs with
      | None | Some (PyDict _) => true
      | Some _ => false
      end
  | _ => false
  end.

(** The file path an item carries, if any. *)
Definition path_of (item : pyobj) : option pyobj :=
  match item with
  | PyDict kvs =>
      match dict_lookup "file" kvs with
      | Some (PyDict file) => dict_lookup "path" file
      | _ => None
      end
  | _ => None
  end.

(** The item has no file path: no ["file"] entry, or one without ["path"]. *)
Definition path_absent (item : pyobj) : Prop :=
  well_formed item = true /\ path_of item = None.

(** The fields of a returned object: the keys of a dict, none otherwise. *)
Definition fields (o : pyobj) : list string :=
  match o with
  | PyDict kvs => keys kvs
  | _ => []
  end.

(** [m] with the events [t] before it. *)
Definition after {A} (t : list event) (m : M A) : M A :=
  (result m, (t ++ trace m)%list).

(** What [report error_msg ;;; ret o] leaves after the request [r]. *)
Definition reported (r : request) (error_msg : string) (o : pyobj) : M pyobj :=
  (Returns o, [Sent r; Logged ERROR error_msg; CtxError error_msg]).

(** ** Candidates, as the remote answers for them *)

Section Candidates.

Variable cfg : config.
Variable http : request -> outcome response.
Variable py_repr : pyobj -> string.
Variable match_keyword : string.
Variable as_json : bool.

(** The candidate has a path, its fetch answers 200 and the content holds
    the keyword. *)
Inductive holds_keyword (filename content : pyobj) (item : pyobj) : Prop :=
| keyword_found file_response :
    well_formed item = true ->
    path_of item = Some filename ->
    truthy filename = true ->
    http (file_request cfg py_repr as_json filename) = Returns file_response ->
    status_code file_response = 200 ->
    file_content as_json file_response = Returns content ->
    py_in match_keyword (py_str py_repr content) = true ->
    holds_keyword filename content item.

(** The candidate is read and fetched without an exception, and it is not
    a match: it has no usable path, or its fetch answers a status other
    than 200, or its content does not hold the keyword. *)
Inductive passed_over (item : pyobj) : Prop :=
| without_path :
    path_absent item ->
    passed_over item
| with_empty_path filename :
    well_formed item = true ->
    path_of item = Some filename ->
    truthy filename = false ->
    passed_over item
| fetch_refused filename file_response :
    well_formed item = true ->
    path_of item = Some filename ->
    truthy filename = true ->
    http (file_request cfg py_repr as_json filename) = Returns file_response ->
    status_code file_response <> 200 ->
    passed_over item
| keyword_missing filename file_response content :
    well_formed item = true ->
    path_of item = Some filename ->
    truthy filename = true ->
    http (file_request cfg py_repr as_json filename) = Returns file_response ->
    status_code file_response = 200 ->
    file_content as_json file_response = Returns content ->
    py_in match_keyword (py_str py_repr content) = false ->
    passed_over item.

(** The fetch a candidate with a usable path is due. *)
Definition fetch_of (item : pyobj) : list request :=
  match path_of item with
  | Some filename =>
      if truthy filename then [file_request cfg py_repr as_json filename] else []
  | None => []
  end.

End Candidates.

(** The shapes of what [search_and_find_matching_file] returns. *)
Inductive workflow_result (py_repr : pyobj -> string) (match_keyword : string)
  : pyobj -> Prop :=
| matched filename content :
    py_in match_keyword (py_str py_repr content) = true ->
    workflow_result py_repr match_keyword
      (PyDict [("filename", filename); ("content", content)])
| no_results :
    workflow_result py_repr match_keyword
      (PyDict [("message", PyStr no_results_message)])
| no_match :
    workflow_result py_repr match_keyword
      (PyDict [("message", PyStr (no_match_message match_keyword))])
| failed error_msg :
    workflow_result py_repr match_keyword (PyDict [("error", PyStr error_msg)]).

(** The message says which status came back. *)
Definition names_status (response : response) (error_msg : string) : Prop :=
  py_in (str_int (status_code response)) error_msg = true.

(** A request carries the bearer token of the configuration. *)
Definition bearer (cfg : config) (r : request) : Prop :=
  In ("Authorization", "Bearer " ++ fstr_env (API_KEY cfg)) (headers r).

(** A request carries no [Authorization] header at all. *)
Definition unauthenticated (r : request) : Prop :=
  ~ In "Authorization" (map fst (headers r)).

(** ** A vault to run the tools against *)

Module Examples.

Definition cfg : config :=
  mkConfig (Some "s3cret") (Some "http://127.0.0.1:27123")
           (Some "http://127.0.0.1:51361").

Definition repr (o : pyobj) : string := "<" ++ type_name o ++ ">".

Definition dumps (o : pyobj) : string := "<" ++ type_name o ++ ">".

(** A response with a text body that is not JSON. *)
Definition answer (status : Z) (body : string) : response :=
  mkResponse status body (Raises (JSONDecodeError "Expecting value")) "".

(** A response with a JSON body. *)
Definition answer_json (status : Z) (body : string) (o : pyobj) : response :=
  mkResponse status body (Returns o) "".

Definition candidate (path : string) : pyobj :=
  PyDict [("file", PyDict [("path", PyStr path)]); ("score", PyInt 1)].

Fixpoint lookup_url (u : string) (files : list (string * outcome response))
  : option (outcome response) :=
  match files with
  | [] => None
  | (name, o) :: rest =>
      if String.eqb u (vault_url cfg name) then Some o else lookup_url u rest
  end.

(** A remote that answers [POST] with [search] and the other requests
    from [files], with 404 for a file it does not have. *)
Definition remote (search : outcome response)
  (files : list (string * outcome response)) (r : request) : outcome response :=
  match method r with
  | POST => search
  | _ =>
      match lookup_url (url r) files with
      | Some o => o
      | None => Returns (answer 404 "Not Found")
      end
  end.

(** A remote with one answer for everything. *)
Definition always (o : outcome response) (r : request) : outcome response := o.

Definition found (candidates : list pyobj) : outcome response :=
  Returns (answer_json 200 "" (PyList candidates)).

(** [A.md] cannot be fetched, [B.md] holds the keyword. *)
Definition a_fails_b_holds : request -> outcome response :=
  remote (found [candidate "A.md"; candidate "B.md"])
         [("A.md", Returns (answer 404 "Not Found"));
          ("B.md", Returns (answer 200 "# Hello world"))].

(** The fetch of [A.md] times out, [B.md] holds the keyword. *)
Definition a_times_out_b_holds : request -> outcome response :=
  remote (found [candidate "A.md"; candidate "B.md"])
         [("A.md", Raises (HTTPError "timed out"));
          ("B.md", Returns (answer 200 "# Hello world"))].

(** Nothing holds the keyword: [A.md] cannot be fetched, an item has no
    path, and [B.md] is about something else. *)
Definition none_holds : request -> outcome response :=
  remote (found [candidate "A.md"; PyDict [("score", PyInt 1)]; candidate "B.md"])
         [("A.md", Returns (answer 404 "Not Found"));
          ("B.md", Returns (answer 200 "# Goodbye"))].

(** [A.md] cannot be reached, [B.md] holds the keyword. *)
Definition a_unreachable_b_holds : request -> outcome response :=
  remote (found [candidate "A.md"; candidate "B.md"])
         [("A.md", Raises (HTTPError "All connection attempts failed"));
          ("B.md", Returns (answer 200 "# Hello world"))].

(** The fetch of [A.md] times out, [B.md] is about something else. *)
Definition a_times_out_b_lacks : request -> outcome response :=
  remote (found [candidate "A.md"; candidate "B.md"])
         [("A.md", Raises (HTTPError "timed out"));
          ("B.md", Returns (answer 200 "# Goodbye"))].

(** An item whose ["file"] is [null]. *)
Definition null_file : pyobj := PyDict [("file", PyNone); ("score", PyInt 1)].

(** The first item has ["file": null], [B.md] holds the keyword. *)
Definition null_file_then_b : request -> outcome response :=
  remote (found [null_file; candidate "B.md"])
         [("B.md", Returns (answer 200 "# Hello world"))].

(** The only candidate cannot be fetched. *)
Definition only_a_fails : request -> outcome response :=
  remote (found [candidate "A.md"]) [("A.md", Returns (answer 404 "Not Found"))].

(** A note with front matter, in both representations. *)
Definition note : pyobj :=
  PyDict [("content", PyStr "# Hello");
          ("frontmatter", PyDict [("rating", PyInt 5)]);
          ("path", PyStr "A.md");
          ("tags", PyList [PyStr "prompts"])].

Definition serves_note : request -> outcome response :=
  always (Returns (answer_json 200 "# Hello" note)).

Definition dql : string := "application/vnd.olrapi.dataview.dql+txt".

Definition query : string := "TABLE file.path FROM #prompts".

(** The workflow looking for [Hello] as Markdown, against a remote. *)
Definition look_for_hello (http : request -> outcome response) : M pyobj :=
  search_and_find_matching_file cfg http repr query "Hello" dql false.

Definition a_md : pyobj := PyStr "A.md".

Definition b_md : pyobj := PyStr "B.md".

End Examples.

(** ** The [search] tool and what goes to [ctx.error] *)

Section SearchTool.

Variable cfg : config.
Variable http : request -> outcome response.
Variable json_dumps : pyobj -> string.

(** [search] is defined in [src/main.py] with its [@mcp.tool()] decorator
    commented out.  Its URL, headers and body are those of the first request
    of [search_and_find_matching_file]. *)
Definition search (query content_type : string) : M pyobj :=
  try (
    response <- send http (search_request cfg query content_type) ;;
    if negb (status_code response =? 200) then
      let error_msg := "Error: Received status code "
                         ++ str_int (status_code response)
                         ++ " from /search/ endpoint." in
      report error_msg ;;;
      ret (PyList [error_dict error_msg])
    else
      body <- response_json response ;;
      ret (PyStr (json_dumps body))
  ) except (fun e =>
    let error_msg := "Failed to perform search: " ++ str_exn e in
    report error_msg ;;;
    ret (PyList [error_dict error_msg])).

End SearchTool.

(** The messages given to [ctx.error], in order. *)
Fixpoint ctx_errors (t : list event) : list string :=
  match t with
  | [] => []
  | CtxError msg :: t' => msg :: ctx_errors t'
  | _ :: t' => ctx_errors t'
  end.

(** A run that reported nothing: no [logger.error], no [ctx.error]. *)
Definition quiet {A} (m : M A) : Prop :=
  logged ERROR (trace m) = [] /\ ctx_errors (trace m) = [].

(** A run that reported [error_msg], once to the log and once to
    [ctx.error], and nothing else. *)
Definition reports {A} (m : M A) (error_msg : string) : Prop :=
  logged ERROR (trace m) = [error_msg] /\ ctx_errors (trace m) = [error_msg].

(** The run returned [v] and reported nothing. *)
Definition succeeds_quietly (m : M pyobj) (v : pyobj) : Prop :=
  result m = Returns v /\ quiet m.

(** The run returned the failure value built from a message, and reported
    that same message. *)
Definition fails_reporting (m : M pyobj) (failure : string -> pyobj) : Prop :=
  exists error_msg, result m = Returns (failure error_msg) /\ reports m error_msg.

(** The failure value of [omni_search] and [search]. *)
Definition error_list (error_msg : string) : pyobj := PyList [error_dict error_msg].

(** What the workflow's error says when the search body is truthy and not a
    list: a dict or a [str] is iterated and its first item, a [str], has no
    [get]; a number or [True] cannot be iterated. *)
Definition not_a_list_error (results : pyobj) : string :=
  match results with
  | PyDict _ | PyStr _ => "'str' object has no attribute 'get'"
  | _ => "'" ++ type_name results ++ "' object is not iterable"
  end.

Section CandidateFailures.

Variable cfg : config.
Variable http : request -> outcome response.
Variable py_repr : pyobj -> string.
Variable as_json : bool.

(** The fetch of the candidate raises [e]: the client call does, or, with
    [as_json], the decoding of a 200 answer does. *)
Inductive fetch_raises (e : exn) (filename : pyobj) (item : pyobj) : Prop :=
| call_raises :
    well_formed item = true ->
    path_of item = Some filename ->
    truthy filename = true ->
    http (file_request cfg py_repr as_json filename) = Raises e ->
    fetch_raises e filename item
| body_raises file_response :
    well_formed item = true ->
    path_of item = Some filename ->
    truthy filename = true ->
    http (file_request cfg py_repr as_json filename) = Returns file_response ->
    status_code file_response = 200 ->
    file_content as_json file_response = Raises e ->
    fetch_raises e filename item.

(** The loop ends at the candidate with the exception [e]: reading its path
    raises, or its fetch does. *)
Inductive stops_scan (e : exn) (item : pyobj) : Prop :=
| path_raises :
    item_path item = Raises e ->
    stops_scan e item
| fetch_fails filename :
    fetch_raises e filename item ->
    stops_scan e item.

End CandidateFailures.

(** ** The Omnisearch client of [src/main2.py]

    [OmnisearchFastMCPClient] posts JSON messages to [{mcp_url}/messages]
    and has no [try]: what goes wrong is raised to the caller.  A call is
    the URL and the [json=] payload the source gives to [client.post];
    [post] is the remote.  The constructor also builds a [FastMCP] object
    that no method uses; it is taken to return. *)

Module Omnisearch.

Record invocation : Type := mkInvocation {
  endpoint : string;
  payload : pyobj
}.

Inductive failure : Type :=
| ClientFailure (e : exn)      (* raised by client.post or response.json() *)
| Exception (msg : string)     (* raise Exception(msg) *)
| KeyError (key : string)      (* d[key] on a dict without key *)
| TypeError_on (o : pyobj).    (* [in], [[]] or [for] on a value that has none *)

Inductive answer (A : Type) : Type :=
| Done (a : A)
| Failed (f : failure).
Arguments Done {A} a.
Arguments Failed {A} f.

(** A computation: how it ended, and the calls it posted, in order. *)
Definition R (A : Type) : Type := (answer A * list invocation)%type.

Definition ret {A} (a : A) : R A := (Done a, []).

Definition raise {A} (f : failure) : R A := (Failed f, []).

Definition lift {A} (a : answer A) : R A := (a, []).

Definition bind {A B} (m : R A) (k : A -> R B) : R B :=
  match m with
  | (Done a, t) => let (r, t') := k a in (r, (t ++ t')%list)
  | (Failed f, t) => (Failed f, t)
  end.

Declare Scope rpc_scope.
Notation "x <- m ;; k" := (bind m (fun x => k))
  (at level 61, m at next level, right associativity) : rpc_scope.
Notation "m ;;; k" := (bind m (fun _ => k))
  (at level 61, right associativity) : rpc_scope.
Local Open Scope rpc_scope.

Definition ended {A} (m : R A) : answer A := fst m.
Definition posted {A} (m : R A) : list invocation := snd m.

(** [key in o] for a [str] key. *)
Definition py_contains (key : string) (o : pyobj) : answer bool :=
  match o with
  | PyDict kvs => Done (match dict_lookup key kvs with Some _ => true | None => false end)
  | PyList l =>
      Done (existsb (fun x => match x with PyStr s => String.eqb s key | _ => false end) l)
  | PyStr s => Done (py_in key s)
  | _ => Failed (TypeError_on o)
  end.

(** [o[key]] for a [str] key. *)
Definition py_getitem (o : pyobj) (key : string) : answer pyobj :=
  match o with
  | PyDict kvs =>
      match dict_lookup key kvs with
      | Some v => Done v
      | None => Failed (KeyError key)
      end
  | _ => Failed (TypeError_on o)
  end.

(** The items of [for x in o]. *)
Definition py_items (o : pyobj) : answer (list pyobj) :=
  match py_iter o with
  | Returns items => Done items
  | Raises _ => Failed (TypeError_on o)
  end.

(** [sep.join(parts)] *)
Fixpoint join (sep : string) (parts : list string) : string :=
  match parts with
  | [] => ""
  | [part] => part
  | part :: rest => part ++ sep ++ join sep rest
  end.

(** [self.mcp_url] as [__init__] sets it. *)
Definition mcp_url_of (host : string) (port : Z) : string :=
  "http://" ++ host ++ ":" ++ str_int port.

(** The message every method posts. *)
Definition invoke (plugin method : string) (args : list pyobj) : pyobj :=
  PyDict [("method", PyStr "invoke");
          ("args", PyDict [("plugin", PyStr plugin);
                           ("method", PyStr method);
                           ("args", PyList args)])].

Section Client.

Variable post : invocation -> outcome response.
Variable mcp_url : string.

Definition call (body : pyobj) : invocation :=
  mkInvocation (mcp_url ++ "/messages") body.

(** [await client.post(f"{self.mcp_url}/messages", json=body)] *)
Definition client_post (body : pyobj) : R response :=
  match post (call body) with
  | Returns response => (Done response, [call body])
  | Raises e => (Failed (ClientFailure e), [call body])
  end.

(** [response.json()] *)
Definition response_json (response : response) : R pyobj :=
  match json response with
  | Returns v => ret v
  | Raises e => raise (ClientFailure e)
  end.

(** [result["result"] if "result" in result else default] *)
Definition result_or (default : pyobj) (result : pyobj) : R pyobj :=
  has <- lift (py_contains "result" result) ;;
  if has then lift (py_getitem result "result") else ret default.

Definition search (query : string) : R pyobj :=
  response <- client_post (invoke "omnisearch" "search" [PyStr query]) ;;
  if status_code response =? 200 then
    result <- response_json response ;;
    result_or (PyList []) result
  else
    raise (Exception ("検索エラー: " ++ str_int (status_code response)
                        ++ " - " ++ text response)).

Definition tags_query (tags : list string) : string :=
  join " " (map (fun tag => "tag:" ++ tag) tags).

Definition search_by_tags (tags : list string) : R pyobj :=
  let query := tags_query tags in
  search query.

Definition get_file_content (file_path : pyobj) : R pyobj :=
  response <- client_post (invoke "app" "vault.read" [file_path]) ;;
  if status_code response =? 200 then
    result <- response_json response ;;
    result_or (PyStr "") result
  else
    raise (Exception ("ファイル読み込みエラー: " ++ str_int (status_code response)
                        ++ " - " ++ text response)).

Definition refresh_index : R pyobj :=
  response <- client_post (invoke "omnisearch" "refreshIndex" []) ;;
  if negb (status_code response =? 200) then
    raise (Exception ("インデックス更新エラー: " ++ str_int (status_code response)
                        ++ " - " ++ text response))
  else ret PyNone.

(** The loop of [search_and_extract_content]: [enriched_results] so far,
    and the results still to go. *)
Fixpoint extract (enriched_results : list pyobj) (results : list pyobj)
  : R (list pyobj) :=
  match results with
  | [] => ret enriched_results
  | result :: rest =>
      path <- lift (py_getitem result "path") ;;
      content <- get_file_content path ;;
      basename <- lift (py_getitem result "basename") ;;
      score <- lift (py_getitem result "score") ;;
      extract (enriched_results
                 ++ [PyDict [("path", path); ("basename", basename);
                             ("score", score); ("content", content)]])%list
              rest
  end.

End Client.

(** [OmnisearchFastMCPClient()]: the default host and port. *)
Definition default_url : string := mcp_url_of "127.0.0.0" 27123.

Definition search_and_extract_content (post : invocation -> outcome response)
  (tags : list string) : R (list pyobj) :=
  results <- search_by_tags post default_url tags ;;
  items <- lift (py_items results) ;;
  extract post default_url [] items.

(** A record of the search results that the loop can read in full. *)
Definition readable (result : pyobj) : Prop :=
  exists kvs path basename score,
    result = PyDict kvs
    /\ dict_lookup "path" kvs = Some path
    /\ dict_lookup "basename" kvs = Some basename
    /\ dict_lookup "score" kvs = Some score.

(** What the loop makes of one record and the content read for it. *)
Definition enriched (result content : pyobj) : pyobj :=
  match result with
  | PyDict kvs =>
      match dict_lookup "path" kvs, dict_lookup "basename" kvs, dict_lookup "score" kvs with
      | Some path, Some basename, Some score =>
          PyDict [("path", path); ("basename", basename);
                  ("score", score); ("content", content)]
      | _, _, _ => PyNone
      end
  | _ => PyNone
  end.

(** The path a record is read under, [None] where it has none. *)
Definition path_field (result : pyobj) : pyobj :=
  match result with
  | PyDict kvs => match dict_lookup "path" kvs with Some path => path | None => PyNone end
  | _ => PyNone
  end.

(** The call that reads the file at [path]. *)
Definition read_call (path : pyobj) : invocation :=
  call default_url (invoke "app" "vault.read" [path]).

(** The search call of [search_and_extract_content] for [tags]. *)
Definition search_call (tags : list string) : invocation :=
  call default_url (invoke "omnisearch" "search" [PyStr (tags_query tags)]).

(** The remote answers the search for [tags] with the list [results]. *)
Definition finds (post : invocation -> outcome response) (tags : list string)
  (results : list pyobj) : Prop :=
  exists response kvs,
    post (search_call tags) = Returns response
    /\ status_code response = 200
    /\ json response = Returns (PyDict kvs)
    /\ dict_lookup "result" kvs = Some (PyList results).

(** The remote answers the read of the record's file with [content], or
    with an object without ["result"], which reads as the empty string. *)
Definition reads (post : invocation -> outcome response) (result content : pyobj)
  : Prop :=
  exists response kvs,
    post (read_call (path_field result)) = Returns response
    /\ status_code response = 200
    /\ json response = Returns (PyDict kvs)
    /\ content = match dict_lookup "result" kvs with Some v => v | None => PyStr "" end.

(** The records with the contents read for them, pair by pair. *)
Definition enrich_all (results contents : list pyobj) : list pyobj :=
  map (fun rc => enriched (fst rc) (snd rc)) (combine results contents).

(** [m] with the calls [t] before it. *)
Definition preceded {A} (t : list invocation) (m : R A) : R A :=
  (ended m, (t ++ posted m)%list).

End Omnisearch.

(** ** A vault behind the Omnisearch client *)

Module RpcExamples.

Import Omnisearch.

Definition record (path basename : string) (score : Z) : pyobj :=
  PyDict [("path", PyStr path); ("basename", PyStr basename); ("score", PyInt score)].

(** A 200 answer with [o] under ["result"]. *)
Definition served (o : pyobj) : response :=
  mkResponse 200 "" (Returns (PyDict [("result", o)])) "".

Definition refused : response :=
  mkResponse 404 "Not Found" (Raises (JSONDecodeError "Expecting value")) "".

(** The method and the first argument of a posted message. *)
Definition rpc_method (body : pyobj) : string :=
  match body with
  | PyDict [_; (_, PyDict [_; (_, PyStr m); _])] => m
  | _ => ""
  end.

Definition rpc_arg (body : pyobj) : pyobj :=
  match body with
  | PyDict [_; (_, PyDict [_; _; (_, PyList (a :: _))])] => a
  | _ => PyNone
  end.

Fixpoint file_named (name : string) (files : list (string * response)) : response :=
  match files with
  | [] => refused
  | (n, r) :: rest => if String.eqb name n then r else file_named name rest
  end.

(** A remote that answers a search with [found] and a read from [files]. *)
Definition rpc_remote (found : pyobj) (files : list (string * response))
  (c : invocation) : outcome response :=
  if String.eqb (rpc_method (payload c)) "search" then Returns (served found)
  else
    match rpc_arg (payload c) with
    | PyStr name => Returns (file_named name files)
    | _ => Returns refused
    end.

Definition a_and_b : list pyobj := [record "A.md" "A" 10; record "B.md" "B" 7].

(** Both files are there. *)
Definition both_there : invocation -> outcome response :=
  rpc_remote (PyList a_and_b)
    [("A.md", served (PyStr "# Hello")); ("B.md", served (PyStr "# Goodbye"))].

(** [A.md] is there, [B.md] is not. *)
Definition b_missing : invocation -> outcome response :=
  rpc_remote (PyList a_and_b) [("A.md", served (PyStr "# Hello"))].

(** The second record has no basename. *)
Definition no_basename : invocation -> outcome response :=
  rpc_remote (PyList [record "A.md" "A" 10; PyDict [("path", PyStr "B.md")]])
    [("A.md", served (PyStr "# Hello")); ("B.md", served (PyStr "# Goodbye"))].

(** The second record has no path. *)
Definition no_path : invocation -> outcome response :=
  rpc_remote (PyList [record "A.md" "A" 10; PyDict [("basename", PyStr "B")]])
    [("A.md", served (PyStr "# Hello")); ("B.md", served (PyStr "# Goodbye"))].

Definition react : list string := ["lang/react"].

End RpcExamples.

(** ** Substrings *)

Lemma prefix_app (kw rest : string) : String.prefix kw (kw ++ rest) = true.
Proof.
  induction kw as [|c kw IH]; simpl.
  - destruct rest; reflexivity.
  - destruct (ascii_dec c c) as [_|ne]; [exact IH | now elim ne].
Qed.

Lemma py_in_prefix (kw s : string) : String.prefix kw s = true -> py_in kw s = true.
Proof.
  intros H. destruct s; cbn [py_in]; rewrite H; reflexivity.
Qed.

Lemma py_in_app (kw before rest : string) : py_in kw (before ++ kw ++ rest) = true.
Proof.
  induction before as [|c before IH]; cbn [append].
  - apply py_in_prefix, prefix_app.
  - cbn [py_in]. rewrite IH. apply orb_true_r.
Qed.

Lemma py_in_tail (kw before : string) : py_in kw (before ++ kw) = true.
Proof.
  induction before as [|c before IH]; cbn [append].
  - apply py_in_prefix. induction kw as [|c kw IH]; simpl; [reflexivity|].
    destruct (ascii_dec c c) as [_|ne]; [exact IH | now elim ne].
  - cbn [py_in]. rewrite IH. apply orb_true_r.
Qed.

(** ** Running a computation *)

Lemma after_nil {A} (m : M A) : after [] m = m.
Proof. destruct m; reflexivity. Qed.

Lemma after_after {A} (t u : list event) (m : M A) :
  after t (after u m) = after (t ++ u)%list m.
Proof. unfold after, result, trace; simpl. now rewrite app_assoc. Qed.

Lemma bind_returns {A B} (a : A) (t : list event) (k : A -> M B) :
  bind (Returns a, t) k = after t (k a).
Proof. unfold bind, after, result, trace. destruct (k a); reflexivity. Qed.

Lemma bind_raises {A B} (e : exn) (t : list event) (k : A -> M B) :
  bind (Raises e, t) k = (Raises e, t).
Proof. reflexivity. Qed.

Lemma try_raises {A} (e : exn) (t : list event) (h : exn -> M A) :
  try_except (Raises e, t) h = after t (h e).
Proof. unfold try_except, after, result, trace. destruct (h e); reflexivity. Qed.

Lemma requests_app (t u : list event) :
  requests (t ++ u)%list = (requests t ++ requests u)%list.
Proof.
  induction t as [|[] t IH]; simpl; rewrite ?IH; reflexivity.
Qed.

Lemma result_after {A} (t : list event) (m : M A) : result (after t m) = result m.
Proof. reflexivity. Qed.

Lemma trace_after {A} (t : list event) (m : M A) :
  trace (after t m) = (t ++ trace m)%list.
Proof. reflexivity. Qed.

(** ** Reading an item *)

Lemma item_path_well_formed (item : pyobj) :
  well_formed item = true ->
  item_path item = Returns (match path_of item with Some p => p | None => PyNone end).
Proof.
  destruct item as [| | | | | |kvs]; try discriminate.
  unfold well_formed, path_of, item_path; simpl.
  destruct (dict_lookup "file" kvs) as [[| | | | | |file]|]; try discriminate;
    reflexivity.
Qed.

Lemma item_path_ill_formed (item : pyobj) :
  well_formed item = false ->
  exists msg, item_path item = Raises (AttributeError msg).
Proof.
  destruct item as [| | | | | |kvs]; try (intros _; eexists; reflexivity).
  unfold well_formed, item_path; simpl.
  destruct (dict_lookup "file" kvs) as [[| | | | | |file]|]; try discriminate;
    intros _; eexists; reflexivity.
Qed.

(** What [item.get("file", {}).get("path")] returning tells about the item. *)
Lemma item_path_returns (item filename : pyobj) :
  item_path item = Returns filename ->
  well_formed item = true
  /\ (path_of item = Some filename \/ (path_of item = None /\ filename = PyNone)).
Proof.
  intros Hpath. destruct (well_formed item) eqn:Hwf.
  - split; [reflexivity|].
    rewrite (item_path_well_formed _ Hwf) in Hpath.
    destruct (path_of item) as [p|]; inversion Hpath; subst; auto.
  - destruct (item_path_ill_formed _ Hwf) as [msg Hraises]. congruence.
Qed.

(** And what its raising tells: the item cannot be read, and has no path. *)
Lemma item_path_raises (item : pyobj) (e : exn) :
  item_path item = Raises e ->
  well_formed item = false /\ path_of item = None.
Proof.
  intros Hpath. destruct (well_formed item) eqn:Hwf.
  - rewrite (item_path_well_formed _ Hwf) in Hpath. discriminate Hpath.
  - split; [reflexivity|].
    destruct item as [| | | | | |kvs]; try reflexivity.
    unfold well_formed in Hwf. unfold path_of.
    destruct (dict_lookup "file" kvs) as [[| | | | | |file]|];
      try discriminate Hwf; reflexivity.
Qed.

(** ** One round of the loop, and the workflow around it *)

Section Workflow.

Variable cfg : config.
Variable http : request -> outcome response.
Variable py_repr : pyobj -> string.

Local Abbreviation file_request := (file_request cfg py_repr).
Local Abbreviation search_request := (search_request cfg).
Local Abbreviation py_str := (py_str py_repr).
Local Abbreviation workflow := (search_and_find_matching_file cfg http py_repr).

Lemma send_returns (r : request) (a : response) :
  http r = Returns a -> send http r = (Returns a, [Sent r]).
Proof. intros H. unfold send, emit, lift, bind. now rewrite H. Qed.

Lemma send_raises (r : request) (e : exn) :
  http r = Raises e -> send http r = (Raises e, [Sent r]).
Proof. intros H. unfold send, emit, lift, bind. now rewrite H. Qed.

(** The loop body, branch by branch. *)
Lemma scan_cons (kw : string) (as_json : bool) (item : pyobj) (rest : list pyobj) :
  scan cfg http py_repr kw as_json (item :: rest) =
  match item_path item with
  | Raises e => (Raises e, [])
  | Returns filename =>
      if truthy filename then
        let sent := Sent (file_request as_json filename) in
        match http (file_request as_json filename) with
        | Raises e => (Raises e, [sent])
        | Returns file_response =>
            if status_code file_response =? 200 then
              match file_content as_json file_response with
              | Raises e => (Raises e, [sent])
              | Returns content =>
                  if py_in kw (py_str content)
                  then (Returns (PyDict [("filename", filename); ("content", content)]),
                        [sent])
                  else after [sent] (scan cfg http py_repr kw as_json rest)
              end
            else
              after [sent; Logged WARNING ("ファイル取得失敗: " ++ py_str filename)]
                    (scan cfg http py_repr kw as_json rest)
        end
      else scan cfg http py_repr kw as_json rest
  end.
Proof.
  cbn [scan]. unfold lift at 1.
  destruct (item_path item) as [filename|e]; [|reflexivity].
  rewrite bind_returns, after_nil.
  destruct (truthy filename); cbn [negb]; [|reflexivity].
  destruct (http (file_request as_json filename)) as [file_response|e] eqn:Hsend.
  - rewrite (send_returns _ _ Hsend), bind_returns.
    destruct (status_code file_response =? 200); cbn [negb].
    + unfold lift.
      destruct (file_content as_json file_response) as [content|e]; [|reflexivity].
      rewrite bind_returns, after_nil.
      destruct (py_in kw (py_str content)); reflexivity.
    + unfold emit. rewrite bind_returns, after_after. reflexivity.
  - rewrite (send_raises _ _ Hsend). reflexivity.
Qed.

Lemma workflow_handler_eq (e : exn) :
  workflow_handler e =
  let error_msg := "search_and_find_matching_file エラー: " ++ str_exn e in
  (Returns (error_dict error_msg), [Logged ERROR error_msg; CtxError error_msg]).
Proof. reflexivity. Qed.

(** The workflow, branch by branch. *)
Lemma workflow_unfold (query kw content_type : string) (as_json : bool) :
  workflow query kw content_type as_json =
  let sent := Sent (search_request query content_type) in
  match http (search_request query content_type) with
  | Raises e => after [sent] (workflow_handler e)
  | Returns search_response =>
      if status_code search_response =? 200 then
        match json search_response with
        | Raises e => after [sent] (workflow_handler e)
        | Returns results =>
            if truthy results then
              match py_iter results with
              | Raises e => after [sent] (workflow_handler e)
              | Returns items =>
                  try_except (after [sent] (scan cfg http py_repr kw as_json items)) workflow_handler
              end
            else (Returns (PyDict [("message", PyStr no_results_message)]), [sent])
        end
      else
        let error_msg := "Search error: status code "
                           ++ str_int (status_code search_response) in
        (Returns (error_dict error_msg),
         [sent; Logged ERROR error_msg; CtxError error_msg])
  end.
Proof.
  unfold search_and_find_matching_file. fold workflow_handler.
  destruct (http (search_request query content_type)) as [search_response|e] eqn:Hsend.
  - rewrite (send_returns _ _ Hsend), bind_returns.
    destruct (status_code search_response =? 200); cbn [negb]; [|reflexivity].
    unfold response_json, lift.
    destruct (json search_response) as [results|e].
    + rewrite bind_returns, after_nil.
      destruct (truthy results); cbn [negb]; [|reflexivity].
      destruct (py_iter results) as [items|e].
      * rewrite bind_returns, after_nil. reflexivity.
      * rewrite bind_raises. unfold after at 1, result, trace. cbn [fst snd app].
        now rewrite try_raises.
    + rewrite bind_raises. unfold after at 1, result, trace. cbn [fst snd app].
      now rewrite try_raises.
  - rewrite (send_raises _ _ Hsend), bind_raises. now rewrite try_raises.
Qed.

End Workflow.

(** ** The scan over the candidates *)

Section Scan.

Variable cfg : config.
Variable http : request -> outcome response.
Variable py_repr : pyobj -> string.
Variable match_keyword : string.
Variable as_json : bool.

Local Abbreviation scan := (scan cfg http py_repr match_keyword as_json).
Local Abbreviation passed_over := (passed_over cfg http py_repr match_keyword as_json).
Local Abbreviation fetch_of := (fetch_of cfg py_repr as_json).

(** A candidate without a path costs nothing. *)
Lemma scan_path_absent (item : pyobj) (rest : list pyobj) :
  path_absent item -> scan (item :: rest) = scan rest.
Proof.
  intros [Hwf Hnone].
  rewrite scan_cons, (item_path_well_formed _ Hwf), Hnone. reflexivity.
Qed.

(** An item that is not a dict, or whose ["file"] entry is not a dict, has
    no [get] to call: the loop raises there, before any fetch. *)
Lemma scan_ill_formed (item : pyobj) (rest : list pyobj) :
  well_formed item = false ->
  exists msg, scan (item :: rest) = (Raises (AttributeError msg), []).
Proof.
  intros Hwf. destruct (item_path_ill_formed _ Hwf) as [msg Hpath].
  exists msg. now rewrite scan_cons, Hpath.
Qed.

(** A candidate that is passed over leaves its fetch, if it is due one, in
    the trace, and the scan goes on with the rest. *)
Lemma scan_passed_over (item : pyobj) (rest : list pyobj) :
  passed_over item ->
  exists t, scan (item :: rest) = after t (scan rest) /\ requests t = fetch_of item.
Proof.
  intros [Habsent
         |filename Hwf Hpath Hfalsy
         |filename file_response Hwf Hpath Htruthy Hsend Hstatus
         |filename file_response content Hwf Hpath Htruthy Hsend Hstatus Hcontent Hin].
  - exists []. rewrite after_nil, (scan_path_absent _ _ Habsent).
    destruct Habsent as [_ Hnone].
    split; [reflexivity|]. now (unfold fetch_of; rewrite Hnone).
  - exists []. rewrite after_nil, scan_cons, (item_path_well_formed _ Hwf), Hpath, Hfalsy.
    split; [reflexivity|]. now (unfold fetch_of; rewrite Hpath, Hfalsy).
  - eexists. rewrite scan_cons, (item_path_well_formed _ Hwf), Hpath, Htruthy.
    cbv zeta. rewrite Hsend.
    apply Z.eqb_neq in Hstatus. rewrite Hstatus.
    split; [reflexivity|]. now (unfold fetch_of; rewrite Hpath, Htruthy).
  - eexists. rewrite scan_cons, (item_path_well_formed _ Hwf), Hpath, Htruthy.
    cbv zeta. rewrite Hsend, Hstatus, Hcontent, Hin. cbn [Z.eqb Pos.eqb].
    split; [reflexivity|]. now (unfold fetch_of; rewrite Hpath, Htruthy).
Qed.

(** Candidates that are passed over, one after the other. *)
Lemma scan_passed_over_prefix (pre rest : list pyobj) :
  Forall passed_over pre ->
  exists t, scan (pre ++ rest)%list = after t (scan rest)
            /\ requests t = flat_map fetch_of pre.
Proof.
  induction 1 as [|item pre Hitem _ (t & Hscan & Hreq)].
  - exists []. now rewrite after_nil.
  - destruct (scan_passed_over item (pre ++ rest)%list Hitem) as (t0 & Hscan0 & Hreq0).
    exists (t0 ++ t)%list. cbn [app flat_map].
    rewrite Hscan0, Hscan, after_after, requests_app, Hreq0, Hreq.
    split; reflexivity.
Qed.

(** The candidate that holds the keyword ends the scan. *)
Lemma scan_holds_keyword (filename content item : pyobj) (rest : list pyobj) :
  holds_keyword cfg http py_repr match_keyword as_json filename content item ->
  scan (item :: rest) =
  (Returns (PyDict [("filename", filename); ("content", content)]),
   [Sent (file_request cfg py_repr as_json filename)]).
Proof.
  intros [file_response Hwf Hpath Htruthy Hsend Hstatus Hcontent Hin].
  rewrite scan_cons, (item_path_well_formed _ Hwf), Hpath, Htruthy.
  cbv zeta. rewrite Hsend, Hstatus, Hcontent, Hin. reflexivity.
Qed.

(** A candidate with an empty path costs nothing either. *)
Lemma scan_empty_path (item filename : pyobj) (rest : list pyobj) :
  well_formed item = true ->
  path_of item = Some filename ->
  truthy filename = false ->
  scan (item :: rest) = scan rest.
Proof.
  intros Hwf Hpath Hfalsy.
  now rewrite scan_cons, (item_path_well_formed _ Hwf), Hpath, Hfalsy.
Qed.

(** The candidate that stops the scan: the exception leaves the loop, the
    fetch of the candidate, if it came to that, is the last request, and
    the rest of the list is not looked at. *)
Lemma scan_stops (e : exn) (item : pyobj) (rest : list pyobj) :
  stops_scan cfg http py_repr as_json e item ->
  exists t, scan (item :: rest) = (Raises e, t) /\ requests t = fetch_of item.
Proof.
  intros [Hpath|filename Hfetch].
  - exists []. rewrite scan_cons, Hpath.
    destruct (item_path_raises _ _ Hpath) as [_ Hnone].
    split; [reflexivity|]. now (unfold fetch_of; rewrite Hnone).
  - exists [Sent (file_request cfg py_repr as_json filename)].
    rewrite scan_cons.
    destruct Hfetch as [Hwf Hpath Htruthy Hcall
                       |file_response Hwf Hpath Htruthy Hcall Hok Hbody];
      rewrite (item_path_well_formed _ Hwf), Hpath, Htruthy; cbv zeta; rewrite Hcall.
    + split; [reflexivity|]. now (unfold fetch_of; rewrite Hpath, Htruthy).
    + rewrite Hok, Hbody. cbn [Z.eqb Pos.eqb].
      split; [reflexivity|]. now (unfold fetch_of; rewrite Hpath, Htruthy).
Qed.

(** The fetch that raised is the fetch the candidate was due. *)
Lemma fetch_of_fetch_raises (e : exn) (filename item : pyobj) :
  fetch_raises cfg http py_repr as_json e filename item ->
  fetch_of item = [file_request cfg py_repr as_json filename].
Proof.
  intros [_ Hpath Htruthy _|file_response _ Hpath Htruthy _ _ _];
    unfold fetch_of; now rewrite Hpath, Htruthy.
Qed.

(** Every candidate is passed over, holds the keyword or stops the scan. *)
Lemma candidate_cases (item : pyobj) :
  passed_over item
  \/ (exists filename content,
        holds_keyword cfg http py_repr match_keyword as_json filename content item)
  \/ (exists e, stops_scan cfg http py_repr as_json e item).
Proof.
  destruct (item_path item) as [filename|e] eqn:Hitem;
    [|right; right; exists e; now apply path_raises].
  destruct (item_path_returns _ _ Hitem) as [Hwf [Hpath|[Hnone _]]];
    [|left; apply without_path; now split].
  destruct (truthy filename) eqn:Htruthy;
    [|left; now apply (with_empty_path _ _ _ _ _ _ filename)].
  destruct (http (file_request cfg py_repr as_json filename))
    as [file_response|e] eqn:Hcall;
    [|right; right; exists e; apply (fetch_fails _ _ _ _ _ _ filename);
      now apply call_raises].
  destruct (Z.eq_dec (status_code file_response) 200) as [Hok|Hrefused];
    [|left; now apply (fetch_refused _ _ _ _ _ _ filename file_response)].
  destruct (file_content as_json file_response) as [content|e] eqn:Hbody;
    [|right; right; exists e; apply (fetch_fails _ _ _ _ _ _ filename);
      now apply (body_raises _ _ _ _ _ _ _ file_response)].
  destruct (py_in match_keyword (py_str py_repr content)) eqn:Hin.
  - right; left. exists filename, content.
    now apply (keyword_found _ _ _ _ _ _ _ _ file_response).
  - left. now apply (keyword_missing _ _ _ _ _ _ filename file_response content).
Qed.

End Scan.

Lemma try_except_returns {A} (m : M A) (a : A) (h : exn -> M A) :
  result m = Returns a -> try_except m h = m.
Proof. destruct m as [[b|e] t]; cbn; [reflexivity | discriminate]. Qed.

Lemma truthy_nonempty (items : list pyobj) :
  items <> [] -> truthy (PyList items) = true.
Proof. destruct items; [congruence | reflexivity]. Qed.

(** ** The workflow: what it returns and what it asks the remote *)

Section WorkflowProperties.

Variable cfg : config.
Variable http : request -> outcome response.
Variable py_repr : pyobj -> string.

Local Abbreviation workflow := (search_and_find_matching_file cfg http py_repr).
Local Abbreviation scan := (scan cfg http py_repr).
Local Abbreviation search_request := (search_request cfg).
Local Abbreviation file_request := (file_request cfg py_repr).
Local Abbreviation passed_over := (passed_over cfg http py_repr).
Local Abbreviation holds_keyword := (holds_keyword cfg http py_repr).
Local Abbreviation stops_scan := (stops_scan cfg http py_repr).
Local Abbreviation fetch_of := (fetch_of cfg py_repr).

(** The search answered 200 with a non-empty list: the workflow is the scan
    of that list, inside the [try]. *)
Lemma workflow_scans (query kw content_type : string) (as_json : bool)
  (search_response : response) (items : list pyobj) :
  http (search_request query content_type) = Returns search_response ->
  status_code search_response = 200 ->
  json search_response = Returns (PyList items) ->
  items <> [] ->
  workflow query kw content_type as_json =
  try_except (after [Sent (search_request query content_type)] (scan kw as_json items))
             workflow_handler.
Proof.
  intros Hsend Hstatus Hjson Hitems.
  rewrite workflow_unfold. cbv zeta.
  rewrite Hsend, Hstatus, Hjson, (truthy_nonempty _ Hitems). reflexivity.
Qed.

(** What the [except] clause makes of a scan that raised. *)
Lemma workflow_scan_raises (query kw content_type : string) (as_json : bool)
  (search_response : response) (items : list pyobj) (e : exn) (t : list event) :
  http (search_request query content_type) = Returns search_response ->
  status_code search_response = 200 ->
  json search_response = Returns (PyList items) ->
  items <> [] ->
  scan kw as_json items = (Raises e, t) ->
  result (workflow query kw content_type as_json)
  = Returns (error_dict ("search_and_find_matching_file エラー: " ++ str_exn e))
  /\ requests (trace (workflow query kw content_type as_json))
     = search_request query content_type :: requests t.
Proof.
  intros Hsend Hstatus Hjson Hne Hscan.
  assert (Hrun : workflow query kw content_type as_json
                 = after (Sent (search_request query content_type) :: t)
                         (workflow_handler e)).
  { rewrite (workflow_scans _ kw _ as_json _ _ Hsend Hstatus Hjson Hne), Hscan.
    apply try_raises. }
  rewrite Hrun, workflow_handler_eq. cbv zeta.
  split; [reflexivity|].
  rewrite trace_after. cbn [trace snd app requests]. rewrite requests_app.
  cbn [requests]. now rewrite app_nil_r.
Qed.

(** Candidates passed over, then the one that holds the keyword. *)
Lemma workflow_finds (query kw content_type : string) (as_json : bool)
  (search_response : response) (pre post : list pyobj) (item filename content : pyobj) :
  http (search_request query content_type) = Returns search_response ->
  status_code search_response = 200 ->
  json search_response = Returns (PyList (pre ++ item :: post)) ->
  Forall (passed_over kw as_json) pre ->
  holds_keyword kw as_json filename content item ->
  result (workflow query kw content_type as_json)
  = Returns (PyDict [("filename", filename); ("content", content)])
  /\ requests (trace (workflow query kw content_type as_json))
     = (search_request query content_type
          :: flat_map (fetch_of as_json) pre ++ [file_request as_json filename])%list.
Proof.
  intros Hsend Hstatus Hjson Hpre Hitem.
  rewrite (workflow_scans _ kw _ as_json _ _ Hsend Hstatus Hjson)
    by (destruct pre; discriminate).
  destruct (scan_passed_over_prefix cfg http py_repr kw as_json pre (item :: post) Hpre)
    as (t & Hscan & Hreq).
  rewrite Hscan, (scan_holds_keyword _ _ _ _ _ _ _ _ post Hitem), !after_after.
  rewrite (try_except_returns _ (PyDict [("filename", filename); ("content", content)]))
    by reflexivity.
  split; [reflexivity|].
  unfold trace, after; cbn [snd trace app requests].
  rewrite !requests_app, Hreq. reflexivity.
Qed.

(** Candidates passed over, then one that stops the scan: the [except]
    clause answers, and the requests end with that candidate. *)
Lemma workflow_stops (query kw content_type : string) (as_json : bool)
  (search_response : response) (pre post : list pyobj) (item : pyobj) (e : exn) :
  http (search_request query content_type) = Returns search_response ->
  status_code search_response = 200 ->
  json search_response = Returns (PyList (pre ++ item :: post)) ->
  Forall (passed_over kw as_json) pre ->
  stops_scan as_json e item ->
  result (workflow query kw content_type as_json)
  = Returns (error_dict ("search_and_find_matching_file エラー: " ++ str_exn e))
  /\ requests (trace (workflow query kw content_type as_json))
     = search_request query content_type :: flat_map (fetch_of as_json) (pre ++ [item]).
Proof.
  intros Hsend Hstatus Hjson Hpre Hitem.
  destruct (scan_passed_over_prefix cfg http py_repr kw as_json pre (item :: post) Hpre)
    as (t & Hscan & Hreq).
  destruct (scan_stops cfg http py_repr kw as_json e item post Hitem)
    as (t' & Hraise & Hreq').
  rewrite Hraise in Hscan. unfold after, result, trace in Hscan. cbn [fst snd] in Hscan.
  destruct (workflow_scan_raises query kw content_type as_json search_response
              (pre ++ item :: post) _ _ Hsend Hstatus Hjson
              ltac:(destruct pre; discriminate) Hscan) as [Hres Htrace].
  split; [exact Hres|].
  rewrite Htrace, requests_app, Hreq, Hreq', flat_map_app. cbn [flat_map].
  now rewrite app_nil_r.
Qed.

(** C1 (amended): for every list the search returns and every keyword, as
    long as the candidates before it are read and fetched without an
    exception -- they have no path, their fetch answered a status other
    than 200, or their content lacks the keyword -- the workflow returns the
    first candidate, in the order of the search results, whose fetched
    content holds the keyword, and no candidate after it is fetched.  When
    instead the first candidate that is not passed over cannot be read or
    its fetch raises, the workflow returns an error, with that candidate
    its last, and no later candidate is fetched or returned. *)
Theorem first_match_is_returned
  (query kw content_type : string) (as_json : bool) (search_response : response)
  (pre post : list pyobj) (item : pyobj) :
  http (search_request query content_type) = Returns search_response ->
  status_code search_response = 200 ->
  json search_response = Returns (PyList (pre ++ item :: post)) ->
  Forall (passed_over kw as_json) pre ->
  (forall filename content,
      holds_keyword kw as_json filename content item ->
      result (workflow query kw content_type as_json)
      = Returns (PyDict [("filename", filename); ("content", content)])
      /\ requests (trace (workflow query kw content_type as_json))
         = (search_request query content_type
              :: flat_map (fetch_of as_json) pre ++ [file_request as_json filename])%list)
  /\ (forall e,
      stops_scan as_json e item ->
      result (workflow query kw content_type as_json)
      = Returns (error_dict ("search_and_find_matching_file エラー: " ++ str_exn e))
      /\ requests (trace (workflow query kw content_type as_json))
         = search_request query content_type
             :: flat_map (fetch_of as_json) (pre ++ [item])).
Proof.
  intros Hsend Hstatus Hjson Hpre. split.
  - intros filename content Hitem.
    exact (workflow_finds _ _ _ _ _ _ post _ _ _ Hsend Hstatus Hjson Hpre Hitem).
  - intros e Hitem.
    exact (workflow_stops _ _ _ _ _ _ post _ _ Hsend Hstatus Hjson Hpre Hitem).
Qed.

(** C2: a search that answers 200 with an empty list gives the "no results"
    message, which is neither the "no match" message of any keyword nor an
    error, and nothing is fetched. *)
Theorem empty_search_gives_no_results
  (query kw content_type : string) (as_json : bool) (search_response : response) :
  http (search_request query content_type) = Returns search_response ->
  status_code search_response = 200 ->
  json search_response = Returns (PyList []) ->
  workflow query kw content_type as_json
  = (Returns (PyDict [("message", PyStr no_results_message)]),
     [Sent (search_request query content_type)])
  /\ (forall keyword, no_results_message <> no_match_message keyword)
  /\ (forall error_msg,
        PyDict [("message", PyStr no_results_message)] <> error_dict error_msg).
Proof.
  intros Hsend Hstatus Hjson.
  rewrite workflow_unfold. cbv zeta. rewrite Hsend, Hstatus, Hjson.
  split; [reflexivity|]. split.
  - intros keyword H. unfold no_results_message, no_match_message in H.
    cbn [append] in H. discriminate H.
  - intros error_msg H. discriminate H.
Qed.

(** C3 (amended): when the search answers 200 with a non-empty list and
    every candidate is read and fetched without an exception and is no
    match, the workflow returns the "no match" message, which names the
    keyword, and the requests it sent are the search and then, candidate by
    candidate in the order of the list, the one fetch of each candidate that
    has a path.  When a candidate cannot be read or its fetch raises, the
    candidates before it having been passed over, the workflow returns an
    error and not the "no match" message, and the candidates after it are
    not visited. *)
Theorem no_match_after_every_candidate
  (query kw content_type : string) (as_json : bool) (search_response : response)
  (items : list pyobj) :
  http (search_request query content_type) = Returns search_response ->
  status_code search_response = 200 ->
  json search_response = Returns (PyList items) ->
  items <> [] ->
  (Forall (passed_over kw as_json) items ->
   result (workflow query kw content_type as_json)
   = Returns (PyDict [("message", PyStr (no_match_message kw))])
   /\ requests (trace (workflow query kw content_type as_json))
      = search_request query content_type :: flat_map (fetch_of as_json) items
   /\ py_in kw (no_match_message kw) = true)
  /\ (forall pre item post e,
      items = (pre ++ item :: post)%list ->
      Forall (passed_over kw as_json) pre ->
      stops_scan as_json e item ->
      result (workflow query kw content_type as_json)
      = Returns (error_dict ("search_and_find_matching_file エラー: " ++ str_exn e))
      /\ result (workflow query kw content_type as_json)
         <> Returns (PyDict [("message", PyStr (no_match_message kw))])
      /\ requests (trace (workflow query kw content_type as_json))
         = search_request query content_type
             :: flat_map (fetch_of as_json) (pre ++ [item])).
Proof.
  intros Hsend Hstatus Hjson Hne. split.
  - intros Hitems.
    rewrite (workflow_scans _ kw _ as_json _ _ Hsend Hstatus Hjson Hne).
    destruct (scan_passed_over_prefix cfg http py_repr kw as_json items [] Hitems)
      as (t & Hscan & Hreq).
    rewrite app_nil_r in Hscan. rewrite Hscan, after_after.
    rewrite (try_except_returns _ (PyDict [("message", PyStr (no_match_message kw))]))
      by reflexivity.
    split; [reflexivity|]. split.
    + unfold trace, after; cbn [snd trace app requests].
      rewrite requests_app, Hreq.
      change (requests (trace (scan kw as_json []))) with (@nil request).
      now rewrite app_nil_r.
    + apply py_in_app.
  - intros pre item post e -> Hpre Hitem.
    destruct (workflow_stops _ kw _ _ _ _ post _ _ Hsend Hstatus Hjson Hpre Hitem)
      as [Hres Hreq].
    split; [exact Hres|]. split; [|exact Hreq].
    rewrite Hres. discriminate.
Qed.

(** C9 (amended): a candidate that can be read and has no file path -- no
    ["file"] entry, a ["file"] object without ["path"], or a path that is
    empty -- is skipped wherever it stands in the list: it is due no fetch,
    and the scan returns and sends exactly what it does on the list without
    that candidate.  An item that cannot be read -- it is not an object, or
    its ["file"] entry is not an object, such as [null] -- has no path
    either, and it is not skipped: once the candidates before it are passed
    over, reading it raises, the workflow returns an error, and neither that
    item nor any later candidate is fetched. *)
Theorem absent_path_is_skipped
  (kw : string) (as_json : bool) (pre post : list pyobj) (item : pyobj) :
  (path_absent item ->
   scan kw as_json (pre ++ item :: post) = scan kw as_json (pre ++ post)
   /\ fetch_of as_json item = [])
  /\ (forall filename,
      well_formed item = true ->
      path_of item = Some filename ->
      truthy filename = false ->
      scan kw as_json (pre ++ item :: post) = scan kw as_json (pre ++ post)
      /\ fetch_of as_json item = [])
  /\ (well_formed item = false ->
      path_of item = None
      /\ forall query content_type search_response,
          http (search_request query content_type) = Returns search_response ->
          status_code search_response = 200 ->
          json search_response = Returns (PyList (pre ++ item :: post)) ->
          Forall (passed_over kw as_json) pre ->
          exists msg,
            item_path item = Raises (AttributeError msg)
            /\ result (workflow query kw content_type as_json)
               = Returns (error_dict ("search_and_find_matching_file エラー: " ++ msg))
            /\ requests (trace (workflow query kw content_type as_json))
               = search_request query content_type :: flat_map (fetch_of as_json) pre).
Proof.
  assert (Hskip : scan kw as_json (item :: post) = scan kw as_json post ->
                  scan kw as_json (pre ++ item :: post) = scan kw as_json (pre ++ post)).
  { intros Hitem. induction pre as [|candidate pre IH]; cbn [app].
    - exact Hitem.
    - rewrite !scan_cons, IH. reflexivity. }
  split; [|split].
  - intros Habsent. split.
    + now apply Hskip, scan_path_absent.
    + destruct Habsent as [_ Hnone]. unfold fetch_of. now rewrite Hnone.
  - intros filename Hwf Hpath Hfalsy. split.
    + now apply Hskip, (scan_empty_path _ _ _ _ _ _ filename).
    + unfold fetch_of. now rewrite Hpath, Hfalsy.
  - intros Hwf. destruct (item_path_ill_formed _ Hwf) as [msg Hraises].
    destruct (item_path_raises _ _ Hraises) as [_ Hnone].
    split; [exact Hnone|].
    intros query content_type search_response Hsend Hstatus Hjson Hpre.
    exists msg. split; [exact Hraises|].
    destruct (workflow_stops query kw content_type as_json search_response pre post item
                (AttributeError msg) Hsend Hstatus Hjson Hpre (path_raises _ _ _ _ _ _ Hraises))
      as [Hres Hreq].
    split; [exact Hres|].
    rewrite Hreq, flat_map_app. cbn [flat_map]. unfold fetch_of at 2.
    rewrite Hnone. cbn [app]. now rewrite app_nil_r.
Qed.

End WorkflowProperties.

(** ** Failures inside the workflow *)

Section WorkflowFailures.

Variable cfg : config.
Variable http : request -> outcome response.
Variable py_repr : pyobj -> string.

Local Abbreviation workflow := (search_and_find_matching_file cfg http py_repr).
Local Abbreviation scan := (scan cfg http py_repr).
Local Abbreviation search_request := (search_request cfg).
Local Abbreviation file_request := (file_request cfg py_repr).
Local Abbreviation py_str := (py_str py_repr).
Local Abbreviation workflow_result := (workflow_result py_repr).

(** The scan either returns a match or the "no match" message, or raises. *)
Lemma scan_outcome (kw : string) (as_json : bool) (items : list pyobj) :
  (exists d, result (scan kw as_json items) = Returns d /\ workflow_result kw d)
  \/ (exists e, result (scan kw as_json items) = Raises e).
Proof.
  induction items as [|item rest IH].
  - left. eexists. split; [reflexivity | constructor].
  - rewrite scan_cons.
    destruct (item_path item) as [filename|e]; [|right; eexists; reflexivity].
    destruct (truthy filename); [|exact IH]. cbv zeta.
    destruct (http (file_request as_json filename)) as [file_response|e];
      [|right; eexists; reflexivity].
    destruct (status_code file_response =? 200); [|exact IH].
    destruct (file_content as_json file_response) as [content|e];
      [|right; eexists; reflexivity].
    destruct (py_in kw (py_str content)) eqn:Hin; [|exact IH].
    left. eexists. split; [reflexivity | now constructor].
Qed.

(** Every request of the scan is the fetch of some path. *)
Lemma scan_requests (kw : string) (as_json : bool) (items : list pyobj) :
  Forall (fun r => exists filename, r = file_request as_json filename)
         (requests (trace (scan kw as_json items))).
Proof.
  induction items as [|item rest IH].
  - constructor.
  - rewrite scan_cons.
    destruct (item_path item) as [filename|e]; [|constructor].
    destruct (truthy filename); [|exact IH]. cbv zeta.
    assert (Hfetch : exists f, file_request as_json filename = file_request as_json f)
      by (eexists; reflexivity).
    destruct (http (file_request as_json filename)) as [file_response|e];
      [|now repeat constructor].
    destruct (status_code file_response =? 200).
    + destruct (file_content as_json file_response) as [content|e];
        [|now repeat constructor].
      destruct (py_in kw (py_str content)); [now repeat constructor|].
      constructor; assumption.
    + constructor; assumption.
Qed.

(** The [except] clause returns an error dict and sends nothing. *)
Lemma try_workflow_handler (m : M pyobj) :
  (exists d, result (try_except m workflow_handler) = Returns d
             /\ (result m = Returns d \/ exists error_msg, d = error_dict error_msg))
  /\ requests (trace (try_except m workflow_handler)) = requests (trace m).
Proof.
  destruct m as [[d|e] t].
  - split; [exists d; split; [reflexivity | now left] | reflexivity].
  - rewrite try_raises, workflow_handler_eq. cbv zeta. split.
    + eexists. split; [reflexivity | right; eexists; reflexivity].
    + unfold trace, after; cbn [snd trace]. rewrite requests_app.
      apply app_nil_r.
Qed.

(** C4 (amended): a search call that raises or answers a status other than
    200 ends the workflow at once with an error and nothing is fetched; a
    candidate whose fetch answers a status other than 200 is logged as a
    warning and the scan goes on with the next candidate.  A candidate
    whose fetch raises is not passed over: the workflow returns an error
    with the message of the exception, and that fetch is its last request. *)
Theorem search_failure_is_fatal_refused_fetch_is_not
  (query kw content_type : string) (as_json : bool) :
  (forall e,
      http (search_request query content_type) = Raises e ->
      let error_msg := "search_and_find_matching_file エラー: " ++ str_exn e in
      workflow query kw content_type as_json
      = (Returns (error_dict error_msg),
         [Sent (search_request query content_type);
          Logged ERROR error_msg; CtxError error_msg]))
  /\ (forall search_response,
      http (search_request query content_type) = Returns search_response ->
      status_code search_response <> 200 ->
      let error_msg := "Search error: status code "
                         ++ str_int (status_code search_response) in
      workflow query kw content_type as_json
      = (Returns (error_dict error_msg),
         [Sent (search_request query content_type);
          Logged ERROR error_msg; CtxError error_msg]))
  /\ (forall item rest filename file_response,
      well_formed item = true ->
      path_of item = Some filename ->
      truthy filename = true ->
      http (file_request as_json filename) = Returns file_response ->
      status_code file_response <> 200 ->
      scan kw as_json (item :: rest)
      = after [Sent (file_request as_json filename);
               Logged WARNING ("ファイル取得失敗: " ++ py_str filename)]
              (scan kw as_json rest))
  /\ (forall search_response pre item post filename e,
      http (search_request query content_type) = Returns search_response ->
      status_code search_response = 200 ->
      json search_response = Returns (PyList (pre ++ item :: post)) ->
      Forall (passed_over cfg http py_repr kw as_json) pre ->
      fetch_raises cfg http py_repr as_json e filename item ->
      result (workflow query kw content_type as_json)
      = Returns (error_dict ("search_and_find_matching_file エラー: " ++ str_exn e))
      /\ requests (trace (workflow query kw content_type as_json))
         = (search_request query content_type
              :: flat_map (fetch_of cfg py_repr as_json) pre
              ++ [file_request as_json filename])%list).
Proof.
  split; [|split; [|split]].
  - intros e Hsend. rewrite workflow_unfold. cbv zeta. rewrite Hsend.
    reflexivity.
  - intros search_response Hsend Hstatus. rewrite workflow_unfold. cbv zeta.
    apply Z.eqb_neq in Hstatus. rewrite Hsend, Hstatus. reflexivity.
  - intros item rest filename file_response Hwf Hpath Htruthy Hsend Hstatus.
    rewrite scan_cons, (item_path_well_formed _ Hwf), Hpath, Htruthy. cbv zeta.
    apply Z.eqb_neq in Hstatus. rewrite Hsend, Hstatus. reflexivity.
  - intros search_response pre item post filename e Hsend Hstatus Hjson Hpre Hitem.
    destruct (workflow_stops cfg http py_repr query kw content_type as_json
                search_response pre post item e Hsend Hstatus Hjson Hpre
                (fetch_fails _ _ _ _ _ _ filename Hitem)) as [Hres Hreq].
    split; [exact Hres|].
    rewrite Hreq, flat_map_app. cbn [flat_map].
    rewrite (fetch_of_fetch_raises _ _ _ _ _ _ _ Hitem). now rewrite app_nil_r.
Qed.

(** C10: whatever the arguments and whatever the remote does, the workflow
    returns, and what it returns is a dict of one of three shapes: the keys
    [filename] and [content] with content that holds the keyword, the single
    key [message] with the "no results" text or with the "no match" text,
    or the single key [error].  The two messages differ by their text only:
    the "no match" text has the keyword in it, the "no results" text is fixed
    and is never the "no match" text of any keyword. *)
Theorem workflow_returns_one_of_three_shapes
  (query kw content_type : string) (as_json : bool) :
  (exists d,
      result (workflow query kw content_type as_json) = Returns d
      /\ workflow_result kw d
      /\ (fields d = ["filename"; "content"] \/ fields d = ["message"]
          \/ fields d = ["error"]))
  /\ py_in kw (no_match_message kw) = true
  /\ (forall keyword, no_results_message <> no_match_message keyword).
Proof.
  assert (Hshape : forall d, workflow_result kw d ->
            fields d = ["filename"; "content"] \/ fields d = ["message"]
            \/ fields d = ["error"]).
  { intros d [filename content _| | |error_msg]; cbn; auto. }
  split; [|split].
  - assert (H : exists d, result (workflow query kw content_type as_json) = Returns d
                          /\ workflow_result kw d).
    { rewrite workflow_unfold. cbv zeta.
      destruct (http (search_request query content_type)) as [search_response|e];
        [|eexists; split; [reflexivity | constructor]].
      destruct (status_code search_response =? 200);
        [|eexists; split; [reflexivity | constructor]].
      destruct (json search_response) as [results|e];
        [|eexists; split; [reflexivity | constructor]].
      destruct (truthy results); [|eexists; split; [reflexivity | constructor]].
      destruct (py_iter results) as [items|e];
        [|eexists; split; [reflexivity | constructor]].
      destruct (try_workflow_handler
                  (after [Sent (search_request query content_type)]
                         (scan kw as_json items)))
        as [(d & Hd & [Hscan|[error_msg ->]]) _].
      - exists d. split; [exact Hd|].
        destruct (scan_outcome kw as_json items) as [(d' & Hd' & Hshape')|(e & He)].
        + unfold after, result in Hscan; cbn [fst] in Hscan.
          unfold result in Hd'. rewrite Hd' in Hscan. now inversion Hscan; subst.
        + unfold after, result in Hscan; cbn [fst] in Hscan.
          unfold result in He. rewrite He in Hscan. discriminate.
      - eexists. split; [exact Hd | constructor]. }
    destruct H as (d & Hd & Hres). exists d. auto.
  - apply py_in_app.
  - intros keyword H. unfold no_results_message, no_match_message in H.
    cbn [append] in H. discriminate H.
Qed.

End WorkflowFailures.

(** ** The single-call adapters, branch by branch *)

Section AdapterRuns.

Variable cfg : config.
Variable http : request -> outcome response.
Variable json_dumps : pyobj -> string.

Lemma get_status_unfold :
  get_status cfg http json_dumps =
  let r := status_request cfg in
  match http r with
  | Raises e =>
      let error_msg := "Failed to get status: " ++ str_exn e in
      reported r error_msg (error_dict error_msg)
  | Returns response =>
      if status_code response =? 200 then
        match json response with
        | Raises e =>
            let error_msg := "Failed to get status: " ++ str_exn e in
            reported r error_msg (error_dict error_msg)
        | Returns body => (Returns (PyStr (json_dumps body)), [Sent r])
        end
      else
        let error_msg := "Error: Received status code "
                           ++ str_int (status_code response) ++ " from Obsidian API." in
        reported r error_msg (error_dict error_msg)
  end.
Proof.
  unfold get_status. cbv zeta.
  destruct (http (status_request cfg)) as [response|e] eqn:Hsend.
  - rewrite (send_returns _ _ _ Hsend), bind_returns.
    destruct (status_code response =? 200); cbn [negb]; [|reflexivity].
    unfold response_json, lift. destruct (json response); reflexivity.
  - rewrite (send_raises _ _ _ Hsend). reflexivity.
Qed.

Lemma omni_search_unfold (q : string) :
  omni_search cfg http json_dumps q =
  let r := omni_request cfg q in
  match http r with
  | Raises e =>
      let error_msg := "Failed to perform Omni Search: " ++ str_exn e in
      reported r error_msg (PyList [error_dict error_msg])
  | Returns response =>
      let printed := Printed (response_url response) in
      if status_code response =? 200 then
        match json response with
        | Raises e =>
            let error_msg := "Failed to perform Omni Search: " ++ str_exn e in
            (Returns (PyList [error_dict error_msg]),
             [Sent r; printed; Logged ERROR error_msg; CtxError error_msg])
        | Returns body => (Returns (PyStr (json_dumps body)), [Sent r; printed])
        end
      else
        let error_msg := "Error: Received status code "
                           ++ str_int (status_code response) ++ " from Omni Search." in
        (Returns (PyList [error_dict error_msg]),
         [Sent r; printed; Logged ERROR error_msg; CtxError error_msg])
  end.
Proof.
  unfold omni_search. cbv zeta.
  destruct (http (omni_request cfg q)) as [response|e] eqn:Hsend.
  - rewrite (send_returns _ _ _ Hsend), bind_returns.
    unfold emit. rewrite bind_returns, after_after.
    destruct (status_code response =? 200); cbn [negb]; [|reflexivity].
    unfold response_json, lift. destruct (json response); reflexivity.
  - rewrite (send_raises _ _ _ Hsend). reflexivity.
Qed.

Lemma get_active_note_unfold (as_json : bool) :
  get_active_note cfg http as_json =
  let r := active_request cfg as_json in
  match http r with
  | Raises e =>
      let error_msg := "Failed to retrieve active note: " ++ str_exn e in
      reported r error_msg (error_dict error_msg)
  | Returns response =>
      if status_code response =? 200 then
        if as_json then
          match json response with
          | Raises e =>
              let error_msg := "Failed to retrieve active note: " ++ str_exn e in
              reported r error_msg (error_dict error_msg)
          | Returns body => (Returns body, [Sent r])
          end
        else (Returns (PyStr (text response)), [Sent r])
      else
        let error_msg := "Error: Received status code "
                           ++ str_int (status_code response)
                           ++ " when retrieving active note." in
        reported r error_msg (error_dict error_msg)
  end.
Proof.
  unfold get_active_note. cbv zeta.
  destruct (http (active_request cfg as_json)) as [response|e] eqn:Hsend.
  - rewrite (send_returns _ _ _ Hsend), bind_returns.
    destruct (status_code response =? 200); cbn [negb]; [|reflexivity].
    destruct as_json; [|reflexivity].
    unfold response_json, lift. destruct (json response); reflexivity.
  - rewrite (send_raises _ _ _ Hsend). reflexivity.
Qed.

Lemma get_file_unfold (filename : string) (as_json : bool) :
  get_file cfg http filename as_json =
  let r := get_file_request cfg filename as_json in
  after [Logged DEBUG ("Retrieving file from URL: " ++ vault_url cfg filename)]
  match http r with
  | Raises e =>
      let error_msg := "Failed to retrieve file '" ++ filename ++ "': " ++ str_exn e in
      reported r error_msg (error_dict error_msg)
  | Returns response =>
      if status_code response =? 200 then
        if as_json then
          match json response with
          | Raises e =>
              let error_msg :=
                "Failed to retrieve file '" ++ filename ++ "': " ++ str_exn e in
              reported r error_msg (error_dict error_msg)
          | Returns body => (Returns body, [Sent r])
          end
        else (Returns (PyStr (text response)), [Sent r])
      else
        let error_msg := "Error: Received status code "
                           ++ str_int (status_code response)
                           ++ " when retrieving file." ++ newline
                           ++ " url: " ++ vault_url cfg filename in
        reported r error_msg (error_dict error_msg)
  end.
Proof.
  unfold get_file. cbv zeta. unfold emit at 1. rewrite bind_returns. f_equal.
  destruct (http (get_file_request cfg filename as_json)) as [response|e] eqn:Hsend.
  - rewrite (send_returns _ _ _ Hsend), bind_returns.
    destruct (status_code response =? 200); cbn [negb]; [|reflexivity].
    destruct as_json; [|reflexivity].
    unfold response_json, lift. destruct (json response); reflexivity.
  - rewrite (send_raises _ _ _ Hsend). reflexivity.
Qed.

Lemma update_file_unfold (filename content : string) :
  update_file cfg http filename content =
  let r := update_request cfg filename content in
  match http r with
  | Raises e =>
      let error_msg := "Failed to update file '" ++ filename ++ "': " ++ str_exn e in
      reported r error_msg (PyStr error_msg)
  | Returns response =>
      if (status_code response =? 200) || (status_code response =? 204) then
        (Returns (PyStr (updated_message filename)), [Sent r])
      else
        let error_msg := "Error: Received status code "
                           ++ str_int (status_code response) ++ " when updating file." in
        reported r error_msg (PyStr error_msg)
  end.
Proof.
  unfold update_file. cbv zeta.
  destruct (http (update_request cfg filename content)) as [response|e] eqn:Hsend.
  - rewrite (send_returns _ _ _ Hsend), bind_returns.
    destruct ((status_code response =? 200) || (status_code response =? 204));
      reflexivity.
  - rewrite (send_raises _ _ _ Hsend). reflexivity.
Qed.

End AdapterRuns.

(** ** The adapters: statuses, representations, authorization *)

Section Adapters.

Variable cfg : config.
Variable http : request -> outcome response.
Variable py_repr : pyobj -> string.
Variable json_dumps : pyobj -> string.

Local Abbreviation get_status := (get_status cfg http json_dumps).
Local Abbreviation omni_search := (omni_search cfg http json_dumps).
Local Abbreviation get_active_note := (get_active_note cfg http).
Local Abbreviation get_file := (get_file cfg http).
Local Abbreviation update_file := (update_file cfg http).
Local Abbreviation workflow := (search_and_find_matching_file cfg http py_repr).
Local Abbreviation status_request := (status_request cfg).
Local Abbreviation omni_request := (omni_request cfg).
Local Abbreviation active_request := (active_request cfg).
Local Abbreviation get_file_request := (get_file_request cfg).
Local Abbreviation update_request := (update_request cfg).
Local Abbreviation search_request := (search_request cfg).
Local Abbreviation file_request := (file_request cfg py_repr).
Local Abbreviation vault_url := (vault_url cfg).

(** C5 (amended): when the request an adapter sends -- for the workflow, its
    search request -- is answered with a status the adapter does not accept
    (other than 200; for [update_file] other than 200 and 204), the adapter
    returns its failure value with a message that contains the status code:
    an error dict, for [omni_search] a list holding one, for [update_file]
    the message itself, which is not the confirmation.  Such a status
    answered to the fetch of a candidate of the workflow is not reported:
    it is logged as a warning and the scan goes on with the next candidate. *)
Theorem refused_request_is_reported
  (q filename content query kw content_type : string) (as_json : bool)
  (response : response) :
  status_code response <> 200 ->
  (http status_request = Returns response ->
   exists error_msg, result get_status = Returns (error_dict error_msg)
                     /\ names_status response error_msg)
  /\ (http (omni_request q) = Returns response ->
      exists error_msg, result (omni_search q) = Returns (PyList [error_dict error_msg])
                        /\ names_status response error_msg)
  /\ (http (active_request as_json) = Returns response ->
      exists error_msg, result (get_active_note as_json) = Returns (error_dict error_msg)
                        /\ names_status response error_msg)
  /\ (http (get_file_request filename as_json) = Returns response ->
      exists error_msg, result (get_file filename as_json) = Returns (error_dict error_msg)
                        /\ names_status response error_msg)
  /\ (http (update_request filename content) = Returns response ->
      status_code response <> 204 ->
      exists error_msg, result (update_file filename content) = Returns (PyStr error_msg)
                        /\ names_status response error_msg
                        /\ error_msg <> updated_message filename)
  /\ (http (search_request query content_type) = Returns response ->
      exists error_msg,
        result (workflow query kw content_type as_json) = Returns (error_dict error_msg)
        /\ names_status response error_msg)
  /\ (forall item rest candidate_path,
      well_formed item = true ->
      path_of item = Some candidate_path ->
      truthy candidate_path = true ->
      http (file_request as_json candidate_path) = Returns response ->
      scan cfg http py_repr kw as_json (item :: rest)
      = after [Sent (file_request as_json candidate_path);
               Logged WARNING ("ファイル取得失敗: " ++ py_str py_repr candidate_path)]
              (scan cfg http py_repr kw as_json rest)).
Proof.
  intros Hstatus. apply Z.eqb_neq in Hstatus.
  repeat split.
  - intros Hsend. rewrite get_status_unfold. cbv zeta. rewrite Hsend, Hstatus.
    eexists. split; [reflexivity | apply py_in_app].
  - intros Hsend. rewrite omni_search_unfold. cbv zeta. rewrite Hsend, Hstatus.
    eexists. split; [reflexivity | apply py_in_app].
  - intros Hsend. rewrite get_active_note_unfold. cbv zeta. rewrite Hsend, Hstatus.
    eexists. split; [reflexivity | apply py_in_app].
  - intros Hsend. rewrite get_file_unfold. cbv zeta. rewrite Hsend, Hstatus.
    eexists. split; [reflexivity | apply py_in_app].
  - intros Hsend Hstatus'. apply Z.eqb_neq in Hstatus'.
    rewrite update_file_unfold. cbv zeta. rewrite Hsend, Hstatus, Hstatus'.
    eexists. split; [reflexivity|]. split; [apply py_in_app|].
    unfold updated_message. cbn [append]. discriminate.
  - intros Hsend. rewrite workflow_unfold. cbv zeta. rewrite Hsend, Hstatus.
    eexists. split; [reflexivity | apply py_in_tail].
  - intros item rest candidate_path Hwf Hpath Htruthy Hsend.
    rewrite scan_cons, (item_path_well_formed _ Hwf), Hpath, Htruthy. cbv zeta.
    rewrite Hsend, Hstatus. reflexivity.
Qed.

(** C6: [update_file] returns its confirmation, which names the file,
    exactly when the status is 200 or 204.  A second call on the same file
    with other content, answered 200 or 204 again, returns the same
    confirmation; what it sent is one [PUT] to the same URL whose body is
    the new content alone. *)
Theorem update_file_overwrites
  (filename first second : string) (answer1 answer2 : response) :
  http (update_request filename first) = Returns answer1 ->
  http (update_request filename second) = Returns answer2 ->
  status_code answer2 = 200 \/ status_code answer2 = 204 ->
  (result (update_file filename first) = Returns (PyStr (updated_message filename))
   <-> status_code answer1 = 200 \/ status_code answer1 = 204)
  /\ updated_message filename = "File '" ++ filename ++ "' updated successfully."
  /\ py_in filename (updated_message filename) = true
  /\ result (update_file filename second) = Returns (PyStr (updated_message filename))
  /\ requests (trace (update_file filename second)) = [update_request filename second]
  /\ method (update_request filename second) = PUT
  /\ url (update_request filename second) = url (update_request filename first)
  /\ data (update_request filename second) = Some second.
Proof.
  intros Hsend1 Hsend2 Hok2.
  rewrite !update_file_unfold. cbv zeta. rewrite Hsend1, Hsend2.
  assert (Hok2' : (status_code answer2 =? 200) || (status_code answer2 =? 204) = true).
  { destruct Hok2 as [->| ->]; reflexivity. }
  rewrite Hok2'. repeat split.
  - destruct ((status_code answer1 =? 200) || (status_code answer1 =? 204)) eqn:Hok1.
    + intros _. apply orb_true_iff in Hok1. rewrite !Z.eqb_eq in Hok1. exact Hok1.
    + unfold reported, result, updated_message. cbn [fst append]. discriminate.
  - intros [->| ->]; reflexivity.
  - apply (py_in_app filename "File '").
Qed.

(** C7: with [as_json] the request of [get_file] asks for the note as JSON
    and a 200 answer gives back the parsed body as it is, front matter and
    every other field included; without it the request, for the same URL,
    asks for Markdown and a 200 answer gives back the text of the body, a
    [str], which has no field. *)
Theorem get_file_representations
  (filename : string) (structured plain : response) (body : pyobj) :
  http (get_file_request filename true) = Returns structured ->
  status_code structured = 200 ->
  json structured = Returns body ->
  http (get_file_request filename false) = Returns plain ->
  status_code plain = 200 ->
  (requests (trace (get_file filename true)) = [get_file_request filename true]
   /\ In ("Accept", "application/vnd.olrapi.note+json")
         (headers (get_file_request filename true))
   /\ result (get_file filename true) = Returns body)
  /\ (requests (trace (get_file filename false)) = [get_file_request filename false]
      /\ In ("Accept", "text/markdown") (headers (get_file_request filename false))
      /\ result (get_file filename false) = Returns (PyStr (text plain))
      /\ fields (PyStr (text plain)) = [])
  /\ url (get_file_request filename true) = url (get_file_request filename false).
Proof.
  intros Hsend1 Hstatus1 Hjson Hsend2 Hstatus2.
  rewrite !get_file_unfold. cbv zeta.
  rewrite Hsend1, Hsend2, Hstatus1, Hstatus2, Hjson.
  repeat split; cbn; auto.
Qed.

(** The workflow sends its search request first and then only fetches. *)
Lemma workflow_requests (query kw content_type : string) (as_json : bool) :
  exists fetches,
    requests (trace (workflow query kw content_type as_json))
    = search_request query content_type :: fetches
    /\ Forall (fun r => exists path, r = file_request as_json path) fetches.
Proof.
  rewrite workflow_unfold. cbv zeta.
  destruct (http (search_request query content_type)) as [search_response|e];
    [|exists []; split; [reflexivity | constructor]].
  destruct (status_code search_response =? 200);
    [|exists []; split; [reflexivity | constructor]].
  destruct (json search_response) as [results|e];
    [|exists []; split; [reflexivity | constructor]].
  destruct (truthy results); [|exists []; split; [reflexivity | constructor]].
  destruct (py_iter results) as [items|e];
    [|exists []; split; [reflexivity | constructor]].
  eexists. split; [|apply (scan_requests cfg http py_repr kw as_json items)].
  destruct (try_workflow_handler
              (after [Sent (search_request query content_type)]
                     (scan cfg http py_repr kw as_json items))) as [_ ->].
  reflexivity.
Qed.

(** C8: every request the note-API adapters send carries
    [Authorization: Bearer <API_KEY>] -- the one request of [get_status],
    [get_active_note], [get_file] and [update_file], and in the workflow the
    search request and each file fetch after it -- while the one request of
    [omni_search] carries no [Authorization] header. *)
Theorem note_api_requests_carry_the_token
  (q filename content query kw content_type : string) (as_json : bool) :
  (requests (trace get_status) = [status_request]
   /\ bearer cfg status_request)
  /\ (requests (trace (get_active_note as_json)) = [active_request as_json]
      /\ bearer cfg (active_request as_json))
  /\ (requests (trace (get_file filename as_json)) = [get_file_request filename as_json]
      /\ bearer cfg (get_file_request filename as_json))
  /\ (requests (trace (update_file filename content)) = [update_request filename content]
      /\ bearer cfg (update_request filename content))
  /\ (exists fetches,
        requests (trace (workflow query kw content_type as_json))
        = search_request query content_type :: fetches
        /\ Forall (fun r => exists path, r = file_request as_json path) fetches
        /\ Forall (bearer cfg) (search_request query content_type :: fetches))
  /\ (requests (trace (omni_search q)) = [omni_request q]
      /\ unauthenticated (omni_request q)).
Proof.
  repeat apply conj.
  - rewrite get_status_unfold. cbv zeta.
    destruct (http status_request) as [r|e]; [|reflexivity].
    destruct (status_code r =? 200); [|reflexivity].
    destruct (json r); reflexivity.
  - now left.
  - rewrite get_active_note_unfold. cbv zeta.
    destruct (http (active_request as_json)) as [r|e]; [|reflexivity].
    destruct (status_code r =? 200); [|reflexivity].
    destruct as_json; [|reflexivity].
    destruct (json r); reflexivity.
  - destruct as_json; now left.
  - rewrite get_file_unfold. cbv zeta.
    destruct (http (get_file_request filename as_json)) as [r|e]; [|reflexivity].
    destruct (status_code r =? 200); [|reflexivity].
    destruct as_json; [|reflexivity].
    destruct (json r); reflexivity.
  - now left.
  - rewrite update_file_unfold. cbv zeta.
    destruct (http (update_request filename content)) as [r|e]; [|reflexivity].
    destruct ((status_code r =? 200) || (status_code r =? 204)); reflexivity.
  - now left.
  - destruct (workflow_requests query kw content_type as_json)
      as (fetches & Hreq & Hfetches).
    exists fetches. repeat apply conj; [exact Hreq | exact Hfetches |].
    constructor; [now left|].
    eapply Forall_impl; [|exact Hfetches].
    intros r [path ->]. now left.
  - rewrite omni_search_unfold. cbv zeta.
    destruct (http (omni_request q)) as [r|e]; [|reflexivity].
    destruct (status_code r =? 200); [|reflexivity].
    destruct (json r); reflexivity.
  - intros [].
Qed.

End Adapters.

(** ** The theorems at work on the example vault *)

Section Instances.

Import Examples.

Local Abbreviation search := (search_request cfg query dql).
Local Abbreviation fetch := (file_request cfg repr false).
Local Abbreviation two_candidates :=
  (answer_json 200 "" (PyList [candidate "A.md"; candidate "B.md"])).

(** [A.md] is refused, [B.md] holds [Hello]: the workflow returns [B.md].
    [A.md] cannot be reached: the workflow returns an error after it. *)
Lemma first_match_is_returned_witness :
  (a_fails_b_holds search = Returns two_candidates
   /\ a_fails_b_holds (fetch a_md) = Returns (answer 404 "Not Found")
   /\ a_fails_b_holds (fetch b_md) = Returns (answer 200 "# Hello world")
   /\ py_in "Hello" "# Hello world" = true)
  /\ (result (look_for_hello a_fails_b_holds)
      = Returns (PyDict [("filename", b_md); ("content", PyStr "# Hello world")])
      /\ requests (trace (look_for_hello a_fails_b_holds))
         = [search; fetch a_md; fetch b_md])
  /\ (a_unreachable_b_holds search = Returns two_candidates
      /\ a_unreachable_b_holds (fetch a_md)
         = Raises (HTTPError "All connection attempts failed"))
  /\ (result (look_for_hello a_unreachable_b_holds)
      = Returns (error_dict
                   "search_and_find_matching_file エラー: All connection attempts failed")
      /\ requests (trace (look_for_hello a_unreachable_b_holds)) = [search; fetch a_md]).
Proof.
  split; [repeat split|]. split; [|split; [split; reflexivity|]].
  - destruct (first_match_is_returned cfg a_fails_b_holds repr query "Hello" dql false
                two_candidates [candidate "A.md"] [] (candidate "B.md")
                eq_refl eq_refl eq_refl) as [Hfound _].
    + constructor; [|constructor].
      apply (fetch_refused _ _ _ _ _ _ a_md (answer 404 "Not Found"));
        [reflexivity | reflexivity | reflexivity | reflexivity | discriminate].
    + apply (Hfound b_md (PyStr "# Hello world")).
      apply (keyword_found _ _ _ _ _ _ _ _ (answer 200 "# Hello world")); reflexivity.
  - destruct (first_match_is_returned cfg a_unreachable_b_holds repr query "Hello" dql
                false two_candidates [] [candidate "B.md"] (candidate "A.md")
                eq_refl eq_refl eq_refl (Forall_nil _)) as [_ Hstops].
    apply (Hstops (HTTPError "All connection attempts failed")).
    apply (fetch_fails _ _ _ _ _ _ a_md). apply call_raises; reflexivity.
Defined.

(** C1, as stated, fails: [A.md] cannot be reached, [B.md] holds the
    keyword, and the workflow returns an error: [B.md] is neither fetched
    nor returned. *)
Lemma unreachable_candidate_hides_the_match :
  a_unreachable_b_holds search = Returns two_candidates
  /\ a_unreachable_b_holds (fetch a_md)
     = Raises (HTTPError "All connection attempts failed")
  /\ a_unreachable_b_holds (fetch b_md) = Returns (answer 200 "# Hello world")
  /\ py_in "Hello" "# Hello world" = true
  /\ look_for_hello a_unreachable_b_holds
     = (Returns (error_dict
                   "search_and_find_matching_file エラー: All connection attempts failed"),
        [Sent search; Sent (fetch a_md);
         Logged ERROR "search_and_find_matching_file エラー: All connection attempts failed";
         CtxError "search_and_find_matching_file エラー: All connection attempts failed"])
  /\ result (look_for_hello a_unreachable_b_holds)
     <> Returns (PyDict [("filename", b_md); ("content", PyStr "# Hello world")]).
Proof.
  repeat split; try reflexivity.
  cbv. discriminate.
Qed.

(** The search finds nothing: the "no results" message, and no fetch. *)
Lemma empty_search_gives_no_results_witness :
  remote (found []) [] search = Returns (answer_json 200 "" (PyList []))
  /\ look_for_hello (remote (found []) [])
     = (Returns (PyDict [("message", PyStr no_results_message)]), [Sent search]).
Proof.
  split; [reflexivity|].
  apply (empty_search_gives_no_results cfg (remote (found []) []) repr query "Hello"
           dql false (answer_json 200 "" (PyList []))); reflexivity.
Defined.

(** Three candidates, none with [Hello]: one refused, one without a path,
    one about something else.  Two fetches, in order, then "no match".
    And two candidates, the first of which times out: an error after it. *)
Lemma no_match_after_every_candidate_witness :
  (none_holds (fetch a_md) = Returns (answer 404 "Not Found")
   /\ path_absent (PyDict [("score", PyInt 1)])
   /\ none_holds (fetch b_md) = Returns (answer 200 "# Goodbye")
   /\ py_in "Hello" "# Goodbye" = false)
  /\ (result (look_for_hello none_holds)
      = Returns (PyDict [("message", PyStr (no_match_message "Hello"))])
      /\ requests (trace (look_for_hello none_holds)) = [search; fetch a_md; fetch b_md]
      /\ py_in "Hello" (no_match_message "Hello") = true)
  /\ (a_times_out_b_lacks search = Returns two_candidates
      /\ a_times_out_b_lacks (fetch a_md) = Raises (HTTPError "timed out"))
  /\ (result (look_for_hello a_times_out_b_lacks)
      = Returns (error_dict "search_and_find_matching_file エラー: timed out")
      /\ result (look_for_hello a_times_out_b_lacks)
         <> Returns (PyDict [("message", PyStr (no_match_message "Hello"))])
      /\ requests (trace (look_for_hello a_times_out_b_lacks)) = [search; fetch a_md]).
Proof.
  split; [repeat split|]. split; [|split; [split; reflexivity|]].
  - destruct (no_match_after_every_candidate cfg none_holds repr query "Hello" dql false
                (answer_json 200 ""
                   (PyList [candidate "A.md"; PyDict [("score", PyInt 1)];
                            candidate "B.md"]))
                [candidate "A.md"; PyDict [("score", PyInt 1)]; candidate "B.md"]
                eq_refl eq_refl eq_refl ltac:(discriminate)) as [Hnone _].
    apply Hnone.
    apply Forall_cons; [|apply Forall_cons; [|apply Forall_cons; [|apply Forall_nil]]].
    + apply (fetch_refused _ _ _ _ _ _ a_md (answer 404 "Not Found"));
        [reflexivity | reflexivity | reflexivity | reflexivity | discriminate].
    + apply without_path. split; reflexivity.
    + apply (keyword_missing _ _ _ _ _ _ b_md (answer 200 "# Goodbye") (PyStr "# Goodbye"));
        reflexivity.
  - destruct (no_match_after_every_candidate cfg a_times_out_b_lacks repr query "Hello"
                dql false two_candidates [candidate "A.md"; candidate "B.md"]
                eq_refl eq_refl eq_refl ltac:(discriminate)) as [_ Hstops].
    apply (Hstops [] (candidate "A.md") [candidate "B.md"] (HTTPError "timed out")).
    + reflexivity.
    + apply Forall_nil.
    + apply (fetch_fails _ _ _ _ _ _ a_md). apply call_raises; reflexivity.
Defined.

(** C3, as stated, fails: the search succeeds with two candidates, neither
    of which holds the keyword, the fetch of [A.md] times out, and the
    workflow returns an error, not the "no match" message, without
    visiting [B.md]. *)
Lemma raising_fetch_is_not_no_match :
  a_times_out_b_lacks search = Returns two_candidates
  /\ a_times_out_b_lacks (fetch a_md) = Raises (HTTPError "timed out")
  /\ a_times_out_b_lacks (fetch b_md) = Returns (answer 200 "# Goodbye")
  /\ py_in "Hello" "# Goodbye" = false
  /\ look_for_hello a_times_out_b_lacks
     = (Returns (error_dict "search_and_find_matching_file エラー: timed out"),
        [Sent search; Sent (fetch a_md);
         Logged ERROR "search_and_find_matching_file エラー: timed out";
         CtxError "search_and_find_matching_file エラー: timed out"])
  /\ result (look_for_hello a_times_out_b_lacks)
     <> Returns (PyDict [("message", PyStr (no_match_message "Hello"))])
  /\ ~ In (fetch b_md) (requests (trace (look_for_hello a_times_out_b_lacks))).
Proof.
  repeat split; try reflexivity.
  - cbv. discriminate.
  - cbv. intros [H|[H|[]]]; discriminate H.
Qed.

(** An item without a path between [A.md] and [B.md] changes nothing, nor
    does one with an empty path; an item whose ["file"] is [null] ends the
    workflow with an error. *)
Lemma absent_path_is_skipped_witness :
  (path_absent (PyDict [("score", PyInt 1)])
   /\ scan cfg a_fails_b_holds repr "Hello" false
        [candidate "A.md"; PyDict [("score", PyInt 1)]; candidate "B.md"]
      = scan cfg a_fails_b_holds repr "Hello" false [candidate "A.md"; candidate "B.md"]
   /\ fetch_of cfg repr false (PyDict [("score", PyInt 1)]) = [])
  /\ (path_of (candidate "") = Some (PyStr "")
      /\ scan cfg a_fails_b_holds repr "Hello" false
           [candidate "A.md"; candidate ""; candidate "B.md"]
         = scan cfg a_fails_b_holds repr "Hello" false [candidate "A.md"; candidate "B.md"]
      /\ fetch_of cfg repr false (candidate "") = [])
  /\ (well_formed null_file = false
      /\ path_of null_file = None
      /\ null_file_then_b search
         = Returns (answer_json 200 "" (PyList [null_file; candidate "B.md"]))
      /\ exists msg,
           item_path null_file = Raises (AttributeError msg)
           /\ result (look_for_hello null_file_then_b)
              = Returns (error_dict ("search_and_find_matching_file エラー: " ++ msg))
           /\ requests (trace (look_for_hello null_file_then_b)) = [search]).
Proof.
  split; [|split].
  - split; [split; reflexivity|].
    destruct (absent_path_is_skipped cfg a_fails_b_holds repr "Hello" false
                [candidate "A.md"] [candidate "B.md"] (PyDict [("score", PyInt 1)]))
      as [Habsent _].
    apply Habsent. split; reflexivity.
  - split; [reflexivity|].
    destruct (absent_path_is_skipped cfg a_fails_b_holds repr "Hello" false
                [candidate "A.md"] [candidate "B.md"] (candidate ""))
      as (_ & Hempty & _).
    apply (Hempty (PyStr "")); reflexivity.
  - split; [reflexivity|].
    destruct (absent_path_is_skipped cfg null_file_then_b repr "Hello" false
                [] [candidate "B.md"] null_file) as (_ & _ & Hfatal).
    destruct (Hfatal eq_refl) as [Hnone Hrun].
    split; [exact Hnone|]. split; [reflexivity|].
    exact (Hrun query dql (answer_json 200 "" (PyList [null_file; candidate "B.md"]))
             eq_refl eq_refl eq_refl (Forall_nil _)).
Defined.

(** C9, as stated, fails: the first item has ["file": null], so it has no
    file path; it is not skipped.  Reading it raises, the workflow returns
    an error, and [B.md], which holds the keyword, is never fetched. *)
Lemma null_file_entry_is_fatal :
  path_of null_file = None
  /\ null_file_then_b search
     = Returns (answer_json 200 "" (PyList [null_file; candidate "B.md"]))
  /\ null_file_then_b (fetch b_md) = Returns (answer 200 "# Hello world")
  /\ py_in "Hello" "# Hello world" = true
  /\ look_for_hello null_file_then_b
     = (Returns (error_dict
          "search_and_find_matching_file エラー: 'NoneType' object has no attribute 'get'"),
        [Sent search;
         Logged ERROR
           "search_and_find_matching_file エラー: 'NoneType' object has no attribute 'get'";
         CtxError
           "search_and_find_matching_file エラー: 'NoneType' object has no attribute 'get'"])
  /\ result (scan cfg null_file_then_b repr "Hello" false [null_file; candidate "B.md"])
     <> result (scan cfg null_file_then_b repr "Hello" false [candidate "B.md"]).
Proof.
  repeat split; try reflexivity.
  cbv. discriminate.
Qed.

(** C4, as stated, fails: the search succeeds, the fetch of [A.md] times
    out, [B.md] holds the keyword, and the workflow returns an error without
    a warning and without fetching [B.md]. *)
Lemma candidate_fetch_timeout_is_fatal :
  a_times_out_b_holds search = Returns two_candidates
  /\ a_times_out_b_holds (fetch a_md) = Raises (HTTPError "timed out")
  /\ a_times_out_b_holds (fetch b_md) = Returns (answer 200 "# Hello world")
  /\ py_in "Hello" "# Hello world" = true
  /\ look_for_hello a_times_out_b_holds
     = (Returns (error_dict "search_and_find_matching_file エラー: timed out"),
        [Sent search; Sent (fetch a_md);
         Logged ERROR "search_and_find_matching_file エラー: timed out";
         CtxError "search_and_find_matching_file エラー: timed out"])
  /\ logged WARNING (trace (look_for_hello a_times_out_b_holds)) = []
  /\ ~ In (fetch b_md) (requests (trace (look_for_hello a_times_out_b_holds))).
Proof.
  repeat split; try reflexivity.
  cbv. intros [H|[H|[]]]; discriminate H.
Qed.

(** The search raising, the search answering 500, [A.md] refused, and the
    fetch of [A.md] timing out. *)
Lemma search_failure_is_fatal_refused_fetch_is_not_witness :
  (remote (Raises (HTTPError "timed out")) [] search = Raises (HTTPError "timed out")
   /\ remote (Returns (answer 500 "")) [] search = Returns (answer 500 "")
   /\ a_fails_b_holds (fetch a_md) = Returns (answer 404 "Not Found")
   /\ a_times_out_b_holds (fetch a_md) = Raises (HTTPError "timed out"))
  /\ result (look_for_hello (remote (Raises (HTTPError "timed out")) []))
     = Returns (error_dict "search_and_find_matching_file エラー: timed out")
  /\ requests (trace (look_for_hello (remote (Raises (HTTPError "timed out")) [])))
     = [search]
  /\ result (look_for_hello (remote (Returns (answer 500 "")) []))
     = Returns (error_dict "Search error: status code 500")
  /\ requests (trace (look_for_hello (remote (Returns (answer 500 "")) []))) = [search]
  /\ scan cfg a_fails_b_holds repr "Hello" false [candidate "A.md"; candidate "B.md"]
     = after [Sent (fetch a_md); Logged WARNING "ファイル取得失敗: A.md"]
             (scan cfg a_fails_b_holds repr "Hello" false [candidate "B.md"])
  /\ result (look_for_hello a_times_out_b_holds)
     = Returns (error_dict "search_and_find_matching_file エラー: timed out")
  /\ requests (trace (look_for_hello a_times_out_b_holds)) = [search; fetch a_md].
Proof.
  split; [repeat split|].
  destruct (search_failure_is_fatal_refused_fetch_is_not
              cfg (remote (Raises (HTTPError "timed out")) []) repr query "Hello" dql false)
    as (Hraised & _ & _).
  destruct (search_failure_is_fatal_refused_fetch_is_not
              cfg (remote (Returns (answer 500 "")) []) repr query "Hello" dql false)
    as (_ & Hrefused & _).
  destruct (search_failure_is_fatal_refused_fetch_is_not
              cfg a_fails_b_holds repr query "Hello" dql false)
    as (_ & _ & Hskipped & _).
  destruct (search_failure_is_fatal_refused_fetch_is_not
              cfg a_times_out_b_holds repr query "Hello" dql false)
    as (_ & _ & _ & Hfatal).
  assert (Htimeout : fetch_raises cfg a_times_out_b_holds repr false
                       (HTTPError "timed out") a_md (candidate "A.md"))
    by (apply call_raises; reflexivity).
  destruct (Hfatal two_candidates [] (candidate "A.md") [candidate "B.md"] a_md
              (HTTPError "timed out") eq_refl eq_refl eq_refl (Forall_nil _) Htimeout)
    as [Hfailed Hlast].
  unfold look_for_hello in Hfailed, Hlast |- *.
  rewrite (Hraised (HTTPError "timed out") eq_refl).
  rewrite (Hrefused (answer 500 "") eq_refl ltac:(discriminate)).
  rewrite (Hskipped (candidate "A.md") [candidate "B.md"] a_md (answer 404 "Not Found")
             eq_refl eq_refl eq_refl eq_refl ltac:(discriminate)).
  rewrite Hfailed, Hlast.
  repeat split.
Defined.

(** C5, as stated, fails: the remote answers the fetch of the only
    candidate with 404, a status the workflow does not accept, and the
    workflow returns the "no match" message, which is no error and does not
    contain 404. *)
Lemma refused_fetch_is_not_reported :
  only_a_fails search = Returns (answer_json 200 "" (PyList [candidate "A.md"]))
  /\ only_a_fails (fetch a_md) = Returns (answer 404 "Not Found")
  /\ requests (trace (look_for_hello only_a_fails)) = [search; fetch a_md]
  /\ result (look_for_hello only_a_fails)
     = Returns (PyDict [("message", PyStr (no_match_message "Hello"))])
  /\ fields (PyDict [("message", PyStr (no_match_message "Hello"))]) = ["message"]
  /\ py_in (str_int 404) (no_match_message "Hello") = false.
Proof.
  repeat split; reflexivity.
Qed.

(** A remote that answers 500 to everything: every adapter reports it, and
    the scan of a candidate only warns. *)
Lemma refused_request_is_reported_witness :
  status_code (answer 500 "Internal Server Error") <> 200
  /\ (exists error_msg,
        result (get_status cfg (always (Returns (answer 500 "Internal Server Error")))
                  dumps)
        = Returns (error_dict error_msg)
        /\ names_status (answer 500 "Internal Server Error") error_msg)
  /\ (exists error_msg,
        result (update_file cfg (always (Returns (answer 500 "Internal Server Error")))
                  "A.md" "# Hello")
        = Returns (PyStr error_msg)
        /\ names_status (answer 500 "Internal Server Error") error_msg
        /\ error_msg <> updated_message "A.md")
  /\ (exists error_msg,
        result (look_for_hello (always (Returns (answer 500 "Internal Server Error"))))
        = Returns (error_dict error_msg)
        /\ names_status (answer 500 "Internal Server Error") error_msg)
  /\ scan cfg (always (Returns (answer 500 "Internal Server Error"))) repr "Hello" false
          [candidate "A.md"]
     = after [Sent (fetch a_md); Logged WARNING "ファイル取得失敗: A.md"]
             (scan cfg (always (Returns (answer 500 "Internal Server Error"))) repr
                   "Hello" false []).
Proof.
  assert (Hstatus : status_code (answer 500 "Internal Server Error") <> 200)
    by discriminate.
  destruct (refused_request_is_reported
              cfg (always (Returns (answer 500 "Internal Server Error"))) repr dumps
              "#prompts" "A.md" "# Hello" query "Hello" dql false
              (answer 500 "Internal Server Error") Hstatus)
    as (Hstatus_tool & _ & _ & _ & Hupdate & Hworkflow & Hcandidate).
  split; [exact Hstatus|].
  split; [exact (Hstatus_tool eq_refl)|].
  split; [apply (Hupdate eq_refl); discriminate|].
  split; [exact (Hworkflow eq_refl)|].
  exact (Hcandidate (candidate "A.md") [] a_md eq_refl eq_refl eq_refl eq_refl).
Defined.

(** [A.md] written twice, the server answering 204 both times. *)
Lemma update_file_overwrites_witness :
  status_code (answer 204 "") = 204
  /\ result (update_file cfg (always (Returns (answer 204 ""))) "A.md" "# Hello")
     = Returns (PyStr "File 'A.md' updated successfully.")
  /\ result (update_file cfg (always (Returns (answer 204 ""))) "A.md" "# Goodbye")
     = Returns (PyStr "File 'A.md' updated successfully.")
  /\ data (update_request cfg "A.md" "# Goodbye") = Some "# Goodbye".
Proof.
  destruct (update_file_overwrites cfg (always (Returns (answer 204 "")))
              "A.md" "# Hello" "# Goodbye" (answer 204 "") (answer 204 "")
              eq_refl eq_refl (or_intror eq_refl))
    as (Hfirst & _ & _ & Hsecond & _ & _ & _ & Hdata).
  split; [reflexivity|].
  split; [apply Hfirst; right; reflexivity|].
  split; [exact Hsecond | exact Hdata].
Defined.

(** The note [A.md] with front matter, read both ways. *)
Lemma get_file_representations_witness :
  In "frontmatter" (fields note)
  /\ result (get_file cfg serves_note "A.md" true) = Returns note
  /\ result (get_file cfg serves_note "A.md" false) = Returns (PyStr "# Hello")
  /\ fields (PyStr "# Hello") = [].
Proof.
  destruct (get_file_representations cfg serves_note "A.md"
              (answer_json 200 "# Hello" note) (answer_json 200 "# Hello" note) note
              eq_refl eq_refl eq_refl eq_refl eq_refl)
    as ((_ & _ & Hstructured) & (_ & _ & Hplain & Hfields) & _).
  split; [right; left; reflexivity|].
  split; [exact Hstructured|]. split; [exact Hplain | exact Hfields].
Defined.

End Instances.

(** ** The adapters: every way a call can end *)

Section AdapterOutcomes.

Variable cfg : config.
Variable http : request -> outcome response.
Variable json_dumps : pyobj -> string.

Lemma search_unfold (query content_type : string) :
  search cfg http json_dumps query content_type =
  let r := search_request cfg query content_type in
  match http r with
  | Raises e =>
      let error_msg := "Failed to perform search: " ++ str_exn e in
      reported r error_msg (PyList [error_dict error_msg])
  | Returns response =>
      if status_code response =? 200 then
        match json response with
        | Raises e =>
            let error_msg := "Failed to perform search: " ++ str_exn e in
            reported r error_msg (PyList [error_dict error_msg])
        | Returns body => (Returns (PyStr (json_dumps body)), [Sent r])
        end
      else
        let error_msg := "Error: Received status code "
                           ++ str_int (status_code response)
                           ++ " from /search/ endpoint." in
        reported r error_msg (PyList [error_dict error_msg])
  end.
Proof.
  unfold search. cbv zeta.
  destruct (http (search_request cfg query content_type)) as [response|e] eqn:Hsend.
  - rewrite (send_returns _ _ _ Hsend), bind_returns.
    destruct (status_code response =? 200); cbn [negb]; [|reflexivity].
    unfold response_json, lift. destruct (json response); reflexivity.
  - rewrite (send_raises _ _ _ Hsend). reflexivity.
Qed.

Local Abbreviation get_status := (get_status cfg http json_dumps).
Local Abbreviation omni_search := (omni_search cfg http json_dumps).
Local Abbreviation get_active_note := (get_active_note cfg http).
Local Abbreviation get_file := (get_file cfg http).
Local Abbreviation update_file := (update_file cfg http).
Local Abbreviation search := (search cfg http json_dumps).

(** Closes a goal about a run that has been reduced to its trace. *)
Ltac ended_quietly := left; eexists; repeat split; reflexivity.
Ltac ended_reporting := right; eexists; repeat split; reflexivity.

(** X1: no single-call adapter ever raises.  Each call ends in one of two
    ways: it returns its success value and nothing went to [logger.error]
    or [ctx.error]; or it returns its failure value -- an error dict, a
    list holding one for [omni_search] and [search], the bare message for
    [update_file] -- and the message in it is the one message logged at
    ERROR and the one message given to [ctx.error]. *)
Theorem adapters_return_what_they_report
  (q filename content query content_type : string) (as_json : bool) :
  ((exists body, succeeds_quietly get_status (PyStr (json_dumps body)))
   \/ fails_reporting get_status error_dict)
  /\ ((exists body, succeeds_quietly (omni_search q) (PyStr (json_dumps body)))
      \/ fails_reporting (omni_search q) error_list)
  /\ ((exists note, succeeds_quietly (get_active_note as_json) note)
      \/ fails_reporting (get_active_note as_json) error_dict)
  /\ ((exists note, succeeds_quietly (get_file filename as_json) note)
      \/ fails_reporting (get_file filename as_json) error_dict)
  /\ (succeeds_quietly (update_file filename content) (PyStr (updated_message filename))
      \/ fails_reporting (update_file filename content) PyStr)
  /\ ((exists body, succeeds_quietly (search query content_type) (PyStr (json_dumps body)))
      \/ fails_reporting (search query content_type) error_list).
Proof.
  repeat apply conj.
  - rewrite get_status_unfold. cbv zeta.
    destruct (http (status_request cfg)) as [r|e]; [|ended_reporting].
    destruct (status_code r =? 200); [|ended_reporting].
    destruct (json r); [ended_quietly | ended_reporting].
  - rewrite omni_search_unfold. cbv zeta.
    destruct (http (omni_request cfg q)) as [r|e]; [|ended_reporting].
    destruct (status_code r =? 200); [|ended_reporting].
    destruct (json r); [ended_quietly | ended_reporting].
  - rewrite get_active_note_unfold. cbv zeta.
    destruct (http (active_request cfg as_json)) as [r|e]; [|ended_reporting].
    destruct (status_code r =? 200); [|ended_reporting].
    destruct as_json; [|ended_quietly].
    destruct (json r); [ended_quietly | ended_reporting].
  - rewrite get_file_unfold. cbv zeta.
    destruct (http (get_file_request cfg filename as_json)) as [r|e]; [|ended_reporting].
    destruct (status_code r =? 200); [|ended_reporting].
    destruct as_json; [|ended_quietly].
    destruct (json r); [ended_quietly | ended_reporting].
  - rewrite update_file_unfold. cbv zeta.
    destruct (http (update_request cfg filename content)) as [r|e]; [|ended_reporting].
    destruct ((status_code r =? 200) || (status_code r =? 204));
      [left; repeat split; reflexivity | ended_reporting].
  - rewrite search_unfold. cbv zeta.
    destruct (http (search_request cfg query content_type)) as [r|e]; [|ended_reporting].
    destruct (status_code r =? 200); [|ended_reporting].
    destruct (json r); [ended_quietly | ended_reporting].
Qed.

(** X2: when the client call itself raises (connection refused, timeout),
    each adapter returns its failure value with the message of the
    exception after the adapter's own prefix, and the trace is the request
    followed by that message at ERROR and to [ctx.error]: nothing is retried. *)
Theorem transport_failure_is_reported
  (q filename content query content_type : string) (as_json : bool) (e : exn) :
  (http (status_request cfg) = Raises e ->
   get_status
   = reported (status_request cfg) ("Failed to get status: " ++ str_exn e)
       (error_dict ("Failed to get status: " ++ str_exn e)))
  /\ (http (omni_request cfg q) = Raises e ->
      omni_search q
      = reported (omni_request cfg q) ("Failed to perform Omni Search: " ++ str_exn e)
          (error_list ("Failed to perform Omni Search: " ++ str_exn e)))
  /\ (http (active_request cfg as_json) = Raises e ->
      get_active_note as_json
      = reported (active_request cfg as_json)
          ("Failed to retrieve active note: " ++ str_exn e)
          (error_dict ("Failed to retrieve active note: " ++ str_exn e)))
  /\ (http (get_file_request cfg filename as_json) = Raises e ->
      result (get_file filename as_json)
      = Returns (error_dict ("Failed to retrieve file '" ++ filename ++ "': " ++ str_exn e))
      /\ requests (trace (get_file filename as_json))
         = [get_file_request cfg filename as_json]
      /\ reports (get_file filename as_json)
           ("Failed to retrieve file '" ++ filename ++ "': " ++ str_exn e))
  /\ (http (update_request cfg filename content) = Raises e ->
      update_file filename content
      = reported (update_request cfg filename content)
          ("Failed to update file '" ++ filename ++ "': " ++ str_exn e)
          (PyStr ("Failed to update file '" ++ filename ++ "': " ++ str_exn e)))
  /\ (http (search_request cfg query content_type) = Raises e ->
      search query content_type
      = reported (search_request cfg query content_type)
          ("Failed to perform search: " ++ str_exn e)
          (error_list ("Failed to perform search: " ++ str_exn e))).
Proof.
  repeat apply conj.
  - intros H. rewrite get_status_unfold. cbv zeta. now rewrite H.
  - intros H. rewrite omni_search_unfold. cbv zeta. now rewrite H.
  - intros H. rewrite get_active_note_unfold. cbv zeta. now rewrite H.
  - intros H. rewrite get_file_unfold. cbv zeta. rewrite H.
    repeat split; reflexivity.
  - intros H. rewrite update_file_unfold. cbv zeta. now rewrite H.
  - intros H. rewrite search_unfold. cbv zeta. now rewrite H.
Qed.

(** X3: a 200 answer whose body is not JSON.  The adapters that parse the
    body ([get_status], [omni_search], [search], and [get_active_note] and
    [get_file] with [as_json]) return their failure value with the decoder's
    message; [get_active_note] and [get_file] without [as_json] never parse
    it and return the text of the body. *)
Theorem undecodable_body_fails_only_where_parsed
  (q filename query content_type : string) (response : response) (e : exn) :
  status_code response = 200 ->
  json response = Raises e ->
  (http (status_request cfg) = Returns response ->
   result get_status = Returns (error_dict ("Failed to get status: " ++ str_exn e)))
  /\ (http (omni_request cfg q) = Returns response ->
      result (omni_search q)
      = Returns (error_list ("Failed to perform Omni Search: " ++ str_exn e)))
  /\ (http (search_request cfg query content_type) = Returns response ->
      result (search query content_type)
      = Returns (error_list ("Failed to perform search: " ++ str_exn e)))
  /\ (http (active_request cfg true) = Returns response ->
      result (get_active_note true)
      = Returns (error_dict ("Failed to retrieve active note: " ++ str_exn e)))
  /\ (http (get_file_request cfg filename true) = Returns response ->
      result (get_file filename true)
      = Returns (error_dict ("Failed to retrieve file '" ++ filename ++ "': "
                               ++ str_exn e)))
  /\ (http (active_request cfg false) = Returns response ->
      succeeds_quietly (get_active_note false) (PyStr (text response)))
  /\ (http (get_file_request cfg filename false) = Returns response ->
      succeeds_quietly (get_file filename false) (PyStr (text response))).
Proof.
  intros Hstatus Hjson. repeat apply conj.
  - intros H. rewrite get_status_unfold. cbv zeta. now rewrite H, Hstatus, Hjson.
  - intros H. rewrite omni_search_unfold. cbv zeta. now rewrite H, Hstatus, Hjson.
  - intros H. rewrite search_unfold. cbv zeta. now rewrite H, Hstatus, Hjson.
  - intros H. rewrite get_active_note_unfold. cbv zeta. now rewrite H, Hstatus, Hjson.
  - intros H. rewrite get_file_unfold. cbv zeta. now rewrite H, Hstatus, Hjson.
  - intros H. rewrite get_active_note_unfold. cbv zeta. rewrite H, Hstatus.
    repeat split; reflexivity.
  - intros H. rewrite get_file_unfold. cbv zeta. rewrite H, Hstatus.
    repeat split; reflexivity.
Qed.

End AdapterOutcomes.

(** ** The workflow, read backwards: from what it returned to what happened *)

Lemma logged_app (lvl : log_level) (t u : list event) :
  logged lvl (t ++ u)%list = (logged lvl t ++ logged lvl u)%list.
Proof.
  induction t as [|[r|l msg|msg|s] t IH]; cbn [app logged]; rewrite ?IH; try reflexivity.
  destruct lvl, l; reflexivity.
Qed.

Lemma ctx_errors_app (t u : list event) :
  ctx_errors (t ++ u)%list = (ctx_errors t ++ ctx_errors u)%list.
Proof.
  induction t as [|[] t IH]; cbn [app ctx_errors]; rewrite ?IH; reflexivity.
Qed.

Section ScanBackwards.

Variable cfg : config.
Variable http : request -> outcome response.
Variable py_repr : pyobj -> string.
Variable match_keyword : string.
Variable as_json : bool.

Local Abbreviation scan := (scan cfg http py_repr match_keyword as_json).
Local Abbreviation passed_over := (passed_over cfg http py_repr match_keyword as_json).
Local Abbreviation holds_keyword := (holds_keyword cfg http py_repr match_keyword as_json).

(** A scan that returns went through its candidates as [passed_over] and
    [holds_keyword] describe them. *)
Lemma scan_returns_inv (items : list pyobj) (d : pyobj) :
  result (scan items) = Returns d ->
  (exists pre item post filename content,
      items = (pre ++ item :: post)%list
      /\ Forall passed_over pre
      /\ holds_keyword filename content item
      /\ d = PyDict [("filename", filename); ("content", content)])
  \/ (Forall passed_over items
      /\ d = PyDict [("message", PyStr (no_match_message match_keyword))]).
Proof.
  revert d. induction items as [|item rest IH]; intros d Hd.
  - right. split; [constructor | now inversion Hd].
  - rewrite scan_cons in Hd.
    destruct (item_path item) as [filename|e] eqn:Hpath; [|discriminate Hd].
    destruct (item_path_returns _ _ Hpath) as [Hwf Hfile].
    assert (Hnext : passed_over item -> result (scan rest) = Returns d ->
              (exists pre item0 post filename0 content,
                  (item :: rest) = (pre ++ item0 :: post)%list
                  /\ Forall passed_over pre
                  /\ holds_keyword filename0 content item0
                  /\ d = PyDict [("filename", filename0); ("content", content)])
              \/ (Forall passed_over (item :: rest)
                  /\ d = PyDict [("message", PyStr (no_match_message match_keyword))])).
    { intros Hover Hrest.
      destruct (IH d Hrest) as [(pre & item0 & post & f & c & -> & Hpre & Hhold & ->)
                               |(Hall & ->)].
      - left. exists (item :: pre), item0, post, f, c.
        repeat split; [now constructor | exact Hhold].
      - right. split; [now constructor | reflexivity]. }
    destruct (truthy filename) eqn:Htruthy.
    + assert (Hsome : path_of item = Some filename).
      { destruct Hfile as [H|[_ ->]]; [exact H | discriminate Htruthy]. }
      cbv zeta in Hd.
      destruct (http (file_request cfg py_repr as_json filename))
        as [file_response|e] eqn:Hsend; [|discriminate Hd].
      destruct (status_code file_response =? 200) eqn:Hstatus.
      * apply Z.eqb_eq in Hstatus.
        destruct (file_content as_json file_response) as [content|e] eqn:Hcontent;
          [|discriminate Hd].
        destruct (py_in match_keyword (py_str py_repr content)) eqn:Hin.
        -- left. exists [], item, rest, filename, content.
           repeat split; [constructor | | now inversion Hd].
           now apply (keyword_found _ _ _ _ _ _ _ _ file_response).
        -- apply Hnext; [|exact Hd].
           now apply (keyword_missing _ _ _ _ _ _ filename file_response content).
      * apply Z.eqb_neq in Hstatus. apply Hnext; [|exact Hd].
        now apply (fetch_refused _ _ _ _ _ _ filename file_response).
    + apply Hnext; [|exact Hd].
      destruct Hfile as [Hsome|[Hnone _]].
      * now apply (with_empty_path _ _ _ _ _ _ filename).
      * apply without_path. now split.
Qed.

(** The scan reports nothing: its only log lines are warnings. *)
Lemma scan_quiet (items : list pyobj) : quiet (scan items).
Proof.
  unfold quiet. induction items as [|item rest [IHlog IHctx]].
  - split; reflexivity.
  - rewrite scan_cons.
    destruct (item_path item) as [filename|e]; [|split; reflexivity].
    destruct (truthy filename); [|now split]. cbv zeta.
    destruct (http (file_request cfg py_repr as_json filename)) as [file_response|e];
      [|split; reflexivity].
    destruct (status_code file_response =? 200).
    + destruct (file_content as_json file_response) as [content|e];
        [|split; reflexivity].
      destruct (py_in match_keyword (py_str py_repr content)); [split; reflexivity|].
      rewrite trace_after, logged_app, ctx_errors_app, IHlog, IHctx.
      split; reflexivity.
    + rewrite trace_after, logged_app, ctx_errors_app, IHlog, IHctx.
      split; reflexivity.
Qed.

(** The scan fetches at most once per candidate, and warns at most once per
    fetch. *)
Lemma scan_bounds (items : list pyobj) :
  (length (logged WARNING (trace (scan items)))
   <= length (requests (trace (scan items))) <= length items)%nat.
Proof.
  induction items as [|item rest IH].
  - cbn. lia.
  - rewrite scan_cons.
    destruct (item_path item) as [filename|e]; [|cbn; lia].
    destruct (truthy filename); [|cbn [length]; lia]. cbv zeta.
    destruct (http (file_request cfg py_repr as_json filename)) as [file_response|e];
      [|cbn; lia].
    destruct (status_code file_response =? 200).
    + destruct (file_content as_json file_response) as [content|e]; [|cbn; lia].
      destruct (py_in match_keyword (py_str py_repr content)); [cbn; lia|].
      rewrite trace_after, logged_app, requests_app. cbn [logged requests app length].
      lia.
    + rewrite trace_after, logged_app, requests_app. cbn [logged requests app length].
      lia.
Qed.

End ScanBackwards.

Lemma code_points_nonempty (s : string) : s <> EmptyString -> code_points s <> [].
Proof.
  destruct s as [|c s]; [congruence|]. intros _.
  cbn [code_points]. destruct s as [|d s]; [discriminate|].
  destruct (is_continuation d); [|discriminate].
  destruct (code_points (String d s)); discriminate.
Qed.

(** Iterating over a search body that is not a list gives only [str] items,
    and at least one when the body is truthy. *)
Lemma py_iter_not_a_list (results : pyobj) (items : list pyobj) :
  truthy results = true ->
  py_iter results = Returns items ->
  (exists l, results = PyList l /\ items = l)
  \/ (exists s rest, items = PyStr s :: rest).
Proof.
  intros Htruthy Hiter. destruct results as [| | | |s|l|kvs]; try discriminate Hiter.
  - right. cbn in Hiter. inversion Hiter; subst.
    assert (Hne : s <> EmptyString).
    { intros ->. discriminate Htruthy. }
    apply code_points_nonempty in Hne.
    destruct (code_points s) as [|cp cps]; [congruence|]. now exists cp, (map PyStr cps).
  - left. exists l. split; [reflexivity | now inversion Hiter].
  - right. destruct kvs as [|[k v] kvs]; [discriminate Htruthy|].
    inversion Hiter; subst. now exists k, (map PyStr (keys kvs)).
Qed.

Section WorkflowBackwards.

Variable cfg : config.
Variable http : request -> outcome response.
Variable py_repr : pyobj -> string.

Local Abbreviation workflow := (search_and_find_matching_file cfg http py_repr).
Local Abbreviation scan := (scan cfg http py_repr).
Local Abbreviation search_request := (search_request cfg).
Local Abbreviation file_request := (file_request cfg py_repr).
Local Abbreviation passed_over := (passed_over cfg http py_repr).
Local Abbreviation holds_keyword := (holds_keyword cfg http py_repr).
Local Abbreviation fetch_of := (fetch_of cfg py_repr).

(** A workflow that returns something other than an error dict got it from
    the scan of the iterated search body, or it is the "no results" dict. *)
Lemma workflow_returns_inv (query kw content_type : string) (as_json : bool) (d : pyobj) :
  result (workflow query kw content_type as_json) = Returns d ->
  (forall error_msg, d <> error_dict error_msg) ->
  exists search_response results,
    http (search_request query content_type) = Returns search_response
    /\ status_code search_response = 200
    /\ json search_response = Returns results
    /\ ((truthy results = false /\ d = PyDict [("message", PyStr no_results_message)])
        \/ (truthy results = true
            /\ exists items, py_iter results = Returns items
                             /\ result (scan kw as_json items) = Returns d)).
Proof.
  intros Hd Hnot. rewrite workflow_unfold in Hd. cbv zeta in Hd.
  destruct (http (search_request query content_type)) as [search_response|e] eqn:Hsend.
  2:{ inversion Hd; subst. now elim (Hnot _ eq_refl). }
  destruct (status_code search_response =? 200) eqn:Hstatus.
  2:{ inversion Hd; subst. now elim (Hnot _ eq_refl). }
  apply Z.eqb_eq in Hstatus.
  destruct (json search_response) as [results|e] eqn:Hjson.
  2:{ inversion Hd; subst. now elim (Hnot _ eq_refl). }
  exists search_response, results. repeat split; try assumption.
  destruct (truthy results) eqn:Htruthy.
  2:{ left. split; [reflexivity | now inversion Hd]. }
  right. split; [reflexivity|].
  destruct (py_iter results) as [items|e] eqn:Hiter.
  2:{ inversion Hd; subst. now elim (Hnot _ eq_refl). }
  exists items. split; [reflexivity|].
  destruct (try_workflow_handler
              (after [Sent (search_request query content_type)] (scan kw as_json items)))
    as [(d' & Hd' & [Hscan|[error_msg ->]]) _].
  - rewrite Hd' in Hd. inversion Hd; subst. exact Hscan.
  - rewrite Hd' in Hd. inversion Hd; subst. now elim (Hnot _ eq_refl).
Qed.

(** X4: a match is never made up.  When the workflow returns
    [{"filename": f, "content": c}], the search answered 200 with a list in
    which some candidate has the path [f], its fetch answered 200 with the
    content [c], [c] holds the keyword, and every candidate before it was
    passed over: it is the first one that matches. *)
Theorem returned_match_is_the_first_match
  (query kw content_type : string) (as_json : bool) (filename content : pyobj) :
  result (workflow query kw content_type as_json)
  = Returns (PyDict [("filename", filename); ("content", content)]) ->
  exists search_response pre item post,
    http (search_request query content_type) = Returns search_response
    /\ status_code search_response = 200
    /\ json search_response = Returns (PyList (pre ++ item :: post))
    /\ Forall (passed_over kw as_json) pre
    /\ holds_keyword kw as_json filename content item.
Proof.
  intros Hd.
  destruct (workflow_returns_inv _ _ _ _ _ Hd) as
    (search_response & results & Hsend & Hstatus & Hjson & [[_ Hno]|(Htruthy & items & Hiter & Hscan)]);
    [discriminate | discriminate Hno |].
  destruct (scan_returns_inv _ _ _ _ _ _ _ Hscan)
    as [(pre & item & post & f & c & -> & Hpre & Hhold & Heq)|[_ Hno]];
    [|discriminate Hno].
  inversion Heq; subst f c.
  exists search_response, pre, item, post. repeat split; try assumption.
  destruct (py_iter_not_a_list _ _ Htruthy Hiter) as [(l & -> & <-)|(s & rest & Hitems)];
    [exact Hjson|].
  exfalso. destruct pre as [|first pre]; cbn [app] in Hitems.
  - inversion Hitems; subst. destruct Hhold as [? Hwf]. discriminate Hwf.
  - inversion Hitems; subst. inversion Hpre as [|? ? Hfirst _]; subst.
    destruct Hfirst as [[Hwf _]|? Hwf|? ? Hwf|? ? ? Hwf]; discriminate Hwf.
Qed.

(** X5: "no match" is never said too early.  When the workflow returns the
    "no match" message, the search answered 200 with a non-empty list and
    every candidate of it was passed over: none was left unread, none
    raised, and none whose fetch answered 200 holds the keyword. *)
Theorem no_match_means_every_candidate_was_passed_over
  (query kw content_type : string) (as_json : bool) :
  result (workflow query kw content_type as_json)
  = Returns (PyDict [("message", PyStr (no_match_message kw))]) ->
  exists search_response items,
    http (search_request query content_type) = Returns search_response
    /\ status_code search_response = 200
    /\ json search_response = Returns (PyList items)
    /\ items <> []
    /\ Forall (passed_over kw as_json) items.
Proof.
  intros Hd.
  destruct (workflow_returns_inv _ _ _ _ _ Hd) as
    (search_response & results & Hsend & Hstatus & Hjson & [[_ Hno]|(Htruthy & items & Hiter & Hscan)]);
    [discriminate | |].
  { exfalso. unfold no_results_message, no_match_message in Hno.
    cbn [append] in Hno. discriminate Hno. }
  destruct (scan_returns_inv _ _ _ _ _ _ _ Hscan)
    as [(pre & item & post & f & c & _ & _ & _ & Hno)|[Hall _]];
    [discriminate Hno|].
  exists search_response, items.
  destruct (py_iter_not_a_list _ _ Htruthy Hiter) as [(l & -> & <-)|(s & rest & ->)].
  - repeat split; try assumption. intros ->. discriminate Htruthy.
  - exfalso. inversion Hall as [|? ? Hfirst _]; subst.
    destruct Hfirst as [[Hwf _]|? Hwf|? ? Hwf|? ? ? Hwf]; discriminate Hwf.
Qed.

End WorkflowBackwards.

(** ** The workflow at its edges *)

Section WorkflowEdges.

Variable cfg : config.
Variable http : request -> outcome response.
Variable py_repr : pyobj -> string.

Local Abbreviation workflow := (search_and_find_matching_file cfg http py_repr).
Local Abbreviation scan := (scan cfg http py_repr).
Local Abbreviation search_request := (search_request cfg).
Local Abbreviation file_request := (file_request cfg py_repr).
Local Abbreviation passed_over := (passed_over cfg http py_repr).
Local Abbreviation fetch_raises := (fetch_raises cfg http py_repr).
Local Abbreviation fetch_of := (fetch_of cfg py_repr).

(** X6: the workflow reports exactly when it fails.  Either it returns a
    match, the "no results" message or the "no match" message and nothing
    went to [logger.error] or [ctx.error]; or it returns an error dict and
    its message is the one message logged at ERROR and the one message given
    to [ctx.error].  A refused fetch is a warning, never an error. *)
Theorem workflow_reports_exactly_when_it_fails
  (query kw content_type : string) (as_json : bool) :
  (exists d, succeeds_quietly (workflow query kw content_type as_json) d
             /\ (fields d = ["filename"; "content"] \/ fields d = ["message"]))
  \/ fails_reporting (workflow query kw content_type as_json) error_dict.
Proof.
  rewrite workflow_unfold. cbv zeta.
  destruct (http (search_request query content_type)) as [search_response|e];
    [|right; eexists; repeat split; reflexivity].
  destruct (status_code search_response =? 200);
    [|right; eexists; repeat split; reflexivity].
  destruct (json search_response) as [results|e];
    [|right; eexists; repeat split; reflexivity].
  destruct (truthy results);
    [|left; eexists; split; [repeat split; reflexivity | now right]].
  destruct (py_iter results) as [items|e];
    [|right; eexists; repeat split; reflexivity].
  destruct (scan_quiet cfg http py_repr kw as_json items) as [Hlog Hctx].
  destruct (scan kw as_json items) as [[d|e] t] eqn:Hscan; cbn [trace snd] in Hlog, Hctx.
  - left. exists d. unfold after, result, trace. cbn [fst snd try_except].
    split.
    + repeat split; cbn [trace snd app logged ctx_errors]; assumption.
    + assert (Hd : result (scan kw as_json items) = Returns d) by now rewrite Hscan.
      destruct (scan_returns_inv _ _ _ _ _ _ _ Hd)
        as [(_ & _ & _ & f & c & _ & _ & _ & ->)|[_ ->]]; [now left | now right].
  - right. unfold after at 1, result at 1, trace at 1. cbn [fst snd].
    rewrite try_raises, workflow_handler_eq. cbv zeta.
    eexists. split; [reflexivity|].
    unfold reports. rewrite trace_after. cbn [trace snd app logged ctx_errors].
    rewrite logged_app, ctx_errors_app. cbn [logged ctx_errors app].
    rewrite Hlog, Hctx. split; reflexivity.
Qed.

(** X7: any falsy search body -- [null], [false], [0], [0.0], the empty
    string, list or dict -- is "no results", and nothing is fetched. *)
Theorem falsy_search_body_is_no_results
  (query kw content_type : string) (as_json : bool) (search_response : response)
  (results : pyobj) :
  http (search_request query content_type) = Returns search_response ->
  status_code search_response = 200 ->
  json search_response = Returns results ->
  truthy results = false ->
  workflow query kw content_type as_json
  = (Returns (PyDict [("message", PyStr no_results_message)]),
     [Sent (search_request query content_type)]).
Proof.
  intros Hsend Hstatus Hjson Hfalsy. rewrite workflow_unfold. cbv zeta.
  now rewrite Hsend, Hstatus, Hjson, Hfalsy.
Qed.

(** X8: a truthy search body that is not a list -- an object, a string, a
    number, [true] -- makes the workflow fail with the message of the
    [AttributeError] or [TypeError] it runs into, and nothing is fetched. *)
Theorem search_body_not_a_list_is_an_error
  (query kw content_type : string) (as_json : bool) (search_response : response)
  (results : pyobj) :
  http (search_request query content_type) = Returns search_response ->
  status_code search_response = 200 ->
  json search_response = Returns results ->
  truthy results = true ->
  (forall items, results <> PyList items) ->
  result (workflow query kw content_type as_json)
  = Returns (error_dict ("search_and_find_matching_file エラー: "
                           ++ not_a_list_error results))
  /\ requests (trace (workflow query kw content_type as_json))
     = [search_request query content_type].
Proof.
  intros Hsend Hstatus Hjson Htruthy Hnot. rewrite workflow_unfold. cbv zeta.
  rewrite Hsend, Hstatus, Hjson, Htruthy.
  destruct results as [| |z|f|s|l|kvs]; try discriminate Htruthy;
    try (split; reflexivity).
  - cbn [py_iter]. assert (Hne : s <> EmptyString) by (intros ->; discriminate Htruthy).
    apply code_points_nonempty in Hne.
    destruct (code_points s) as [|cp cps]; [congruence|]. cbn [map].
    rewrite scan_cons. split; reflexivity.
  - now elim (Hnot l).
  - destruct kvs as [|[k v] kvs]; [discriminate Htruthy|]. cbn [py_iter keys map fst].
    rewrite scan_cons. split; reflexivity.
Qed.

(** X9: an item the workflow cannot read -- not an object, or with a
    ["file"] entry that is not an object, such as [null] -- ends the scan:
    the workflow returns an error dict carrying the [AttributeError], and
    neither that item nor any later candidate is fetched. *)
Theorem unreadable_item_ends_the_scan
  (query kw content_type : string) (as_json : bool) (search_response : response)
  (pre post : list pyobj) (item : pyobj) :
  http (search_request query content_type) = Returns search_response ->
  status_code search_response = 200 ->
  json search_response = Returns (PyList (pre ++ item :: post)) ->
  Forall (passed_over kw as_json) pre ->
  well_formed item = false ->
  (exists type,
      result (workflow query kw content_type as_json)
      = Returns (error_dict ("search_and_find_matching_file エラー: '" ++ type
                               ++ "' object has no attribute 'get'")))
  /\ requests (trace (workflow query kw content_type as_json))
     = search_request query content_type :: flat_map (fetch_of as_json) pre.
Proof.
  intros Hsend Hstatus Hjson Hpre Hwf.
  destruct (scan_passed_over_prefix cfg http py_repr kw as_json pre (item :: post) Hpre)
    as (t & Hscan & Hreq).
  assert (Hitem : exists type,
             scan kw as_json (item :: post)
             = (Raises (AttributeError ("'" ++ type ++ "' object has no attribute 'get'")),
                [])).
  { rewrite scan_cons. destruct item as [| | | | | |kvs];
      try (eexists; reflexivity).
    unfold well_formed in Hwf. unfold item_path, py_get.
    destruct (dict_lookup "file" kvs) as [[| | | | | |file]|];
      try discriminate Hwf; eexists; reflexivity. }
  destruct Hitem as [type Hitem]. rewrite Hitem in Hscan.
  unfold after, result, trace in Hscan. cbn [fst snd] in Hscan.
  destruct (workflow_scan_raises cfg http py_repr query kw content_type as_json
              search_response (pre ++ item :: post) _ _ Hsend Hstatus Hjson
              ltac:(destruct pre; discriminate) Hscan) as [Hres Htrace].
  split; [exists type; exact Hres|].
  rewrite Htrace, app_nil_r, Hreq. reflexivity.
Qed.

(** X10: a candidate whose fetch raises -- the client call, or with
    [as_json] the decoding of a 200 answer -- ends the scan: the workflow
    returns an error dict with the message of the exception, that fetch is
    its last request, and no later candidate is tried. *)
Theorem raising_fetch_ends_the_scan
  (query kw content_type : string) (as_json : bool) (search_response : response)
  (pre post : list pyobj) (item filename : pyobj) (e : exn) :
  http (search_request query content_type) = Returns search_response ->
  status_code search_response = 200 ->
  json search_response = Returns (PyList (pre ++ item :: post)) ->
  Forall (passed_over kw as_json) pre ->
  fetch_raises as_json e filename item ->
  result (workflow query kw content_type as_json)
  = Returns (error_dict ("search_and_find_matching_file エラー: " ++ str_exn e))
  /\ requests (trace (workflow query kw content_type as_json))
     = (search_request query content_type
          :: flat_map (fetch_of as_json) pre ++ [file_request as_json filename])%list.
Proof.
  intros Hsend Hstatus Hjson Hpre Hitem.
  destruct (scan_passed_over_prefix cfg http py_repr kw as_json pre (item :: post) Hpre)
    as (t & Hscan & Hreq).
  assert (Hraise : scan kw as_json (item :: post)
                   = (Raises e, [Sent (file_request as_json filename)])).
  { rewrite scan_cons.
    destruct Hitem as [Hwf Hpath Htruthy Hcall
                      |file_response Hwf Hpath Htruthy Hcall Hok Hbody];
      rewrite (item_path_well_formed _ Hwf), Hpath, Htruthy; cbv zeta; rewrite Hcall.
    - reflexivity.
    - now rewrite Hok, Hbody. }
  rewrite Hraise in Hscan. unfold after, result, trace in Hscan. cbn [fst snd] in Hscan.
  destruct (workflow_scan_raises cfg http py_repr query kw content_type as_json
              search_response (pre ++ item :: post) _ _ Hsend Hstatus Hjson
              ltac:(destruct pre; discriminate) Hscan) as [Hres Htrace].
  split; [exact Hres|].
  rewrite Htrace, requests_app, Hreq. reflexivity.
Qed.

(** X11: the workflow never sends more than one request per candidate on
    top of the search, whatever the remote answers, and it never logs more
    warnings than it made fetches. *)
Theorem workflow_sends_at_most_one_fetch_per_candidate
  (query kw content_type : string) (as_json : bool) (search_response : response)
  (items : list pyobj) :
  http (search_request query content_type) = Returns search_response ->
  json search_response = Returns (PyList items) ->
  (length (requests (trace (workflow query kw content_type as_json)))
   <= 1 + length items)%nat
  /\ (1 + length (logged WARNING (trace (workflow query kw content_type as_json)))
      <= length (requests (trace (workflow query kw content_type as_json))))%nat.
Proof.
  intros Hsend Hjson. rewrite workflow_unfold. cbv zeta. rewrite Hsend, Hjson.
  destruct (status_code search_response =? 200); [|cbn; lia].
  destruct (truthy (PyList items)); [|cbn; lia]. cbn [py_iter].
  pose proof (scan_bounds cfg http py_repr kw as_json items) as Hbound.
  destruct (scan kw as_json items) as [[d|e] t]; cbn [trace snd] in Hbound.
  - unfold after, result, trace. cbn [fst snd try_except app requests logged length].
    lia.
  - replace (try_except (after [Sent (search_request query content_type)] (Raises e, t))
                        workflow_handler)
      with (after (Sent (search_request query content_type) :: t) (workflow_handler e))
      by (symmetry; apply try_raises).
    rewrite workflow_handler_eq. cbv zeta.
    rewrite trace_after. cbn [trace snd app requests logged].
    rewrite requests_app, logged_app. cbn [requests logged length app].
    rewrite !app_nil_r. cbn [length]. split; lia.
Qed.

End WorkflowEdges.

(** ** The workflow beside [get_file] and [search] *)

Section WorkflowAndTools.

Variable cfg : config.
Variable http : request -> outcome response.
Variable py_repr : pyobj -> string.
Variable json_dumps : pyobj -> string.

Local Abbreviation workflow := (search_and_find_matching_file cfg http py_repr).
Local Abbreviation get_file := (get_file cfg http).
Local Abbreviation search := (search cfg http json_dumps).
Local Abbreviation search_request := (search_request cfg).

(** X12: what the workflow returns can be read back.  When it returns
    [{"filename": name, "content": content}] with a [str] name,
    [get_file(name, as_json)] with the same [as_json] sends the very request
    the workflow sent for that candidate and returns the same content. *)
Theorem returned_match_can_be_read_back
  (query kw content_type name : string) (as_json : bool) (content : pyobj) :
  result (workflow query kw content_type as_json)
  = Returns (PyDict [("filename", PyStr name); ("content", content)]) ->
  get_file_request cfg name as_json = file_request cfg py_repr as_json (PyStr name)
  /\ In (get_file_request cfg name as_json)
        (requests (trace (workflow query kw content_type as_json)))
  /\ result (get_file name as_json) = Returns content.
Proof.
  intros Hd.
  destruct (workflow_returns_inv _ _ _ _ _ _ _ _ Hd) as
    (search_response & results & Hsend & Hstatus & Hjson
     & [[_ Hno]|(Htruthy & items & Hiter & Hscan)]);
    [discriminate | discriminate Hno |].
  destruct (scan_returns_inv _ _ _ _ _ _ _ Hscan)
    as [(pre & item & post & f & c & Hitems & Hpre & Hhold & Heq)|[_ Hno]];
    [|discriminate Hno].
  inversion Heq; subst f c.
  split; [reflexivity|]. split.
  - rewrite workflow_unfold. cbv zeta. rewrite Hsend, Hstatus, Hjson, Htruthy, Hiter.
    cbn [Z.eqb Pos.eqb].
    destruct (try_workflow_handler
                (after [Sent (search_request query content_type)]
                       (scan cfg http py_repr kw as_json items))) as [_ ->].
    rewrite trace_after, requests_app. cbn [requests app]. right.
    destruct (scan_passed_over_prefix cfg http py_repr kw as_json pre (item :: post) Hpre)
      as (t & Hrun & _).
    rewrite Hitems, Hrun, (scan_holds_keyword _ _ _ _ _ _ _ _ post Hhold).
    rewrite trace_after, requests_app. cbn [trace snd requests].
    apply in_or_app. right. now left.
  - destruct Hhold as [file_response _ _ _ Hfetch Hok Hcontent _].
    rewrite get_file_unfold. cbv zeta.
    change (get_file_request cfg name as_json)
      with (file_request cfg py_repr as_json (PyStr name)).
    rewrite Hfetch, Hok. cbn [Z.eqb Pos.eqb].
    unfold file_content in Hcontent. destruct as_json.
    + now rewrite Hcontent.
    + inversion Hcontent. reflexivity.
Qed.

(** X13: [search] and the workflow start alike.  Both send the same request
    first, and whenever [search] returns its failure value -- the call
    raised, the status was not 200, or the body was not JSON -- the workflow
    with the same query returns an error dict after that one request. *)
Theorem workflow_fails_where_search_fails
  (query kw content_type : string) (as_json : bool) (error_msg : string) :
  result (search query content_type) = Returns (error_list error_msg) ->
  requests (trace (search query content_type)) = [search_request query content_type]
  /\ (exists error_msg',
        result (workflow query kw content_type as_json)
        = Returns (error_dict error_msg'))
  /\ requests (trace (workflow query kw content_type as_json))
     = [search_request query content_type].
Proof.
  rewrite search_unfold, workflow_unfold. cbv zeta.
  destruct (http (search_request query content_type)) as [response|e].
  - destruct (status_code response =? 200).
    + destruct (json response) as [body|e]; [discriminate|].
      intros _. repeat split. eexists. reflexivity.
    + intros _. repeat split. eexists. reflexivity.
  - intros _. repeat split. eexists. reflexivity.
Qed.

End WorkflowAndTools.

(** ** The Omnisearch client *)

Lemma py_in_skip (kw before s : string) :
  py_in kw s = true -> py_in kw (before ++ s) = true.
Proof.
  intros H. induction before as [|c before IH]; cbn [append]; [exact H|].
  cbn [py_in]. rewrite IH. apply orb_true_r.
Qed.

Lemma py_in_self (kw rest : string) : py_in kw (kw ++ rest) = true.
Proof. apply py_in_prefix, prefix_app. Qed.

Section OmnisearchClient.

Variable post : Omnisearch.invocation -> outcome response.
Variable mcp_url : string.

Local Abbreviation call := (Omnisearch.call mcp_url).
Local Abbreviation client_search := (Omnisearch.search post mcp_url).
Local Abbreviation search_by_tags := (Omnisearch.search_by_tags post mcp_url).
Local Abbreviation get_file_content := (Omnisearch.get_file_content post mcp_url).
Local Abbreviation refresh_index := (Omnisearch.refresh_index post mcp_url).

Lemma client_post_eq (body : pyobj) :
  Omnisearch.client_post post mcp_url body =
  (match post (call body) with
   | Returns response => Omnisearch.Done response
   | Raises e => Omnisearch.Failed (Omnisearch.ClientFailure e)
   end, [call body]).
Proof. unfold Omnisearch.client_post. destruct (post (call body)); reflexivity. Qed.

(** Nothing after the post sends anything. *)
Lemma result_or_posts_nothing (default result : pyobj) :
  Omnisearch.posted (Omnisearch.result_or default result) = [].
Proof.
  unfold Omnisearch.result_or, Omnisearch.lift, Omnisearch.bind.
  destruct (Omnisearch.py_contains "result" result) as [[|]|f]; reflexivity.
Qed.

Lemma search_posts_once (query : string) :
  Omnisearch.posted (client_search query)
  = [call (Omnisearch.invoke "omnisearch" "search" [PyStr query])].
Proof.
  unfold Omnisearch.search. rewrite client_post_eq.
  destruct (post _) as [response|e]; [|reflexivity].
  cbn [Omnisearch.bind].
  destruct (status_code response =? 200); [|reflexivity].
  unfold Omnisearch.response_json.
  destruct (json response) as [result|e]; [|reflexivity].
  cbn [Omnisearch.bind Omnisearch.ret].
  pose proof (result_or_posts_nothing (PyList []) result) as Hnone.
  destruct (Omnisearch.result_or (PyList []) result) as [r t].
  cbn [Omnisearch.posted snd] in *. now subst t.
Qed.

Lemma tags_query_cons (tag : string) (tags : list string) :
  tags <> [] ->
  Omnisearch.tags_query (tag :: tags)
  = "tag:" ++ tag ++ " " ++ Omnisearch.tags_query tags.
Proof.
  destruct tags as [|next tags]; [congruence|]. intros _. reflexivity.
Qed.

(** X14: [search_by_tags] posts one search whose query names every tag as
    [tag:<tag>], whatever the remote answers; with no tag at all the query
    is the empty string, and it is posted all the same. *)
Theorem search_by_tags_asks_for_every_tag (tags : list string) :
  Omnisearch.posted (search_by_tags tags)
  = [call (Omnisearch.invoke "omnisearch" "search"
             [PyStr (Omnisearch.tags_query tags)])]
  /\ (forall tag, In tag tags ->
                  py_in ("tag:" ++ tag) (Omnisearch.tags_query tags) = true)
  /\ (tags = [] -> Omnisearch.tags_query tags = "").
Proof.
  split; [apply search_posts_once|]. split; [|now intros ->].
  induction tags as [|first rest IH]; intros tag Hin; [destruct Hin|].
  destruct rest as [|next rest].
  - destruct Hin as [->|[]]. exact (py_in_tail ("tag:" ++ tag) "").
  - rewrite tags_query_cons by discriminate.
    destruct Hin as [->|Hin].
    + apply (py_in_self ("tag:" ++ tag)).
    + change ("tag:" ++ first ++ " " ++ Omnisearch.tags_query (next :: rest))
        with ("tag:" ++ (first ++ " " ++ Omnisearch.tags_query (next :: rest))).
      apply py_in_skip, py_in_skip, py_in_skip. now apply IH.
Qed.

Lemma result_or_dict (default : pyobj) (kvs : list (string * pyobj)) :
  Omnisearch.result_or default (PyDict kvs)
  = (Omnisearch.Done (match dict_lookup "result" kvs with
                      | Some v => v
                      | None => default
                      end), []).
Proof.
  unfold Omnisearch.result_or, Omnisearch.py_contains, Omnisearch.py_getitem.
  destruct (dict_lookup "result" kvs); reflexivity.
Qed.

(** X15: a 200 answer that is an object: [search] returns what is under
    ["result"], and an empty list when there is no such key;
    [get_file_content] likewise, with the empty string when there is none.
    A missing key is not an error. *)
Theorem missing_result_reads_as_empty
  (query : string) (file_path : pyobj) (response : response)
  (kvs : list (string * pyobj)) :
  status_code response = 200 ->
  json response = Returns (PyDict kvs) ->
  (post (call (Omnisearch.invoke "omnisearch" "search" [PyStr query])) = Returns response ->
   Omnisearch.ended (client_search query)
   = Omnisearch.Done (match dict_lookup "result" kvs with
                      | Some v => v
                      | None => PyList []
                      end))
  /\ (post (call (Omnisearch.invoke "app" "vault.read" [file_path])) = Returns response ->
      Omnisearch.ended (get_file_content file_path)
      = Omnisearch.Done (match dict_lookup "result" kvs with
                         | Some v => v
                         | None => PyStr ""
                         end)).
Proof.
  intros Hstatus Hjson. split; intros Hpost.
  - unfold Omnisearch.search. rewrite client_post_eq, Hpost. cbn [Omnisearch.bind].
    rewrite Hstatus. cbn [Z.eqb Pos.eqb].
    unfold Omnisearch.response_json. rewrite Hjson.
    cbn [Omnisearch.bind Omnisearch.ret]. now rewrite result_or_dict.
  - unfold Omnisearch.get_file_content. rewrite client_post_eq, Hpost.
    cbn [Omnisearch.bind]. rewrite Hstatus. cbn [Z.eqb Pos.eqb].
    unfold Omnisearch.response_json. rewrite Hjson.
    cbn [Omnisearch.bind Omnisearch.ret]. now rewrite result_or_dict.
Qed.

(** X16: the client has no failure value: an answer with a status other
    than 200 makes [search], [get_file_content] and [refresh_index] raise
    an [Exception] whose message gives the status and the text of the
    answer, after that one call; [refresh_index] answered 200 returns
    [None]. *)
Theorem refused_call_is_raised
  (query : string) (file_path : pyobj) (response : response) :
  (status_code response <> 200 ->
   post (call (Omnisearch.invoke "omnisearch" "search" [PyStr query])) = Returns response ->
   client_search query
   = (Omnisearch.Failed
        (Omnisearch.Exception ("検索エラー: " ++ str_int (status_code response)
                                 ++ " - " ++ text response)),
      [call (Omnisearch.invoke "omnisearch" "search" [PyStr query])]))
  /\ (status_code response <> 200 ->
      post (call (Omnisearch.invoke "app" "vault.read" [file_path])) = Returns response ->
      get_file_content file_path
      = (Omnisearch.Failed
           (Omnisearch.Exception ("ファイル読み込みエラー: "
                                    ++ str_int (status_code response)
                                    ++ " - " ++ text response)),
         [call (Omnisearch.invoke "app" "vault.read" [file_path])]))
  /\ (status_code response <> 200 ->
      post (call (Omnisearch.invoke "omnisearch" "refreshIndex" [])) = Returns response ->
      refresh_index
      = (Omnisearch.Failed
           (Omnisearch.Exception ("インデックス更新エラー: "
                                    ++ str_int (status_code response)
                                    ++ " - " ++ text response)),
         [call (Omnisearch.invoke "omnisearch" "refreshIndex" [])]))
  /\ (status_code response = 200 ->
      post (call (Omnisearch.invoke "omnisearch" "refreshIndex" [])) = Returns response ->
      refresh_index
      = (Omnisearch.Done PyNone,
         [call (Omnisearch.invoke "omnisearch" "refreshIndex" [])])).
Proof.
  repeat apply conj.
  - intros Hstatus Hpost. apply Z.eqb_neq in Hstatus.
    unfold Omnisearch.search. rewrite client_post_eq, Hpost. cbn [Omnisearch.bind].
    now rewrite Hstatus.
  - intros Hstatus Hpost. apply Z.eqb_neq in Hstatus.
    unfold Omnisearch.get_file_content. rewrite client_post_eq, Hpost.
    cbn [Omnisearch.bind]. now rewrite Hstatus.
  - intros Hstatus Hpost. apply Z.eqb_neq in Hstatus.
    unfold Omnisearch.refresh_index. rewrite client_post_eq, Hpost.
    cbn [Omnisearch.bind]. now rewrite Hstatus.
  - intros Hstatus Hpost.
    unfold Omnisearch.refresh_index. rewrite client_post_eq, Hpost.
    cbn [Omnisearch.bind]. now rewrite Hstatus.
Qed.

End OmnisearchClient.

(** ** search_and_extract_content *)

Section Extract.

Variable post : Omnisearch.invocation -> outcome response.

Local Abbreviation extract := (Omnisearch.extract post Omnisearch.default_url).
Local Abbreviation reads := (Omnisearch.reads post).
Local Abbreviation read_of :=
  (fun result => Omnisearch.read_call (Omnisearch.path_field result)).
Local Abbreviation preceded := Omnisearch.preceded.

Lemma rpc_bind_done {A B} (a : A) (t : list Omnisearch.invocation)
  (k : A -> Omnisearch.R B) :
  Omnisearch.bind (Omnisearch.Done a, t) k = preceded t (k a).
Proof.
  unfold Omnisearch.bind, preceded, Omnisearch.ended, Omnisearch.posted.
  destruct (k a); reflexivity.
Qed.

Lemma preceded_nil {A} (m : Omnisearch.R A) : preceded [] m = m.
Proof. destruct m; reflexivity. Qed.

Lemma preceded_preceded {A} (t u : list Omnisearch.invocation) (m : Omnisearch.R A) :
  preceded t (preceded u m) = preceded (t ++ u)%list m.
Proof.
  unfold preceded, Omnisearch.ended, Omnisearch.posted; cbn [fst snd].
  now rewrite app_assoc.
Qed.

(** Reading the file of a record the remote serves. *)
Lemma get_file_content_reads (result content : pyobj) :
  reads result content ->
  Omnisearch.get_file_content post Omnisearch.default_url (Omnisearch.path_field result)
  = (Omnisearch.Done content, [read_of result]).
Proof.
  intros (response & kvs & Hpost & Hstatus & Hjson & ->).
  unfold Omnisearch.get_file_content. rewrite client_post_eq.
  unfold Omnisearch.read_call in Hpost. rewrite Hpost, rpc_bind_done, Hstatus.
  cbn [Z.eqb Pos.eqb]. unfold Omnisearch.response_json. rewrite Hjson.
  unfold Omnisearch.ret. rewrite rpc_bind_done, preceded_nil, result_or_dict.
  reflexivity.
Qed.

(** One round of the loop on a record that can be read in full. *)
Lemma extract_readable (acc rest : list pyobj) (result content : pyobj) :
  Omnisearch.readable result ->
  reads result content ->
  extract acc (result :: rest)
  = preceded [read_of result]
      (extract (acc ++ [Omnisearch.enriched result content]) rest).
Proof.
  intros (kvs & path & basename & score & -> & Hpath & Hbase & Hscore) Hread.
  pose proof (get_file_content_reads _ _ Hread) as Hget.
  cbn [Omnisearch.path_field] in Hget. rewrite Hpath in Hget.
  cbn [Omnisearch.extract]. unfold Omnisearch.lift, Omnisearch.py_getitem.
  rewrite Hpath, rpc_bind_done, preceded_nil, Hget, rpc_bind_done.
  rewrite Hbase, rpc_bind_done, preceded_nil, Hscore, rpc_bind_done, preceded_nil.
  cbn [Omnisearch.enriched Omnisearch.path_field]. rewrite Hpath, Hbase, Hscore.
  reflexivity.
Qed.

(** The loop over records that can all be read. *)
Lemma extract_prefix (pre contents rest acc : list pyobj) :
  Forall Omnisearch.readable pre ->
  Forall2 reads pre contents ->
  extract acc (pre ++ rest)
  = preceded (map read_of pre)
      (extract (acc ++ Omnisearch.enrich_all pre contents) rest).
Proof.
  intros Hreadable Hreads. revert acc Hreadable.
  induction Hreads as [|result content pre contents Hread _ IH]; intros acc Hreadable.
  - cbn [app map Omnisearch.enrich_all combine]. now rewrite preceded_nil, app_nil_r.
  - inversion Hreadable as [|? ? Hfirst Hrest]; subst.
    cbn [app]. rewrite (extract_readable _ _ _ _ Hfirst Hread), (IH _ Hrest).
    rewrite preceded_preceded. cbn [map app].
    unfold Omnisearch.enrich_all. cbn [combine map fst snd].
    now rewrite <- app_assoc.
Qed.

(** The search step of [search_and_extract_content]. *)
Lemma extract_after_search (tags : list string) (results : list pyobj) :
  Omnisearch.finds post tags results ->
  Omnisearch.search_and_extract_content post tags
  = preceded [Omnisearch.search_call tags] (extract [] results).
Proof.
  intros (response & kvs & Hpost & Hstatus & Hjson & Hresult).
  unfold Omnisearch.search_and_extract_content, Omnisearch.search_by_tags,
    Omnisearch.search.
  rewrite client_post_eq. unfold Omnisearch.search_call in Hpost.
  rewrite Hpost, rpc_bind_done, Hstatus. cbn [Z.eqb Pos.eqb].
  unfold Omnisearch.response_json. rewrite Hjson.
  unfold Omnisearch.ret. rewrite rpc_bind_done, preceded_nil, result_or_dict, Hresult.
  unfold preceded at 1. cbn [Omnisearch.ended Omnisearch.posted fst snd app].
  rewrite rpc_bind_done. unfold Omnisearch.lift, Omnisearch.py_items. cbn [py_iter].
  rewrite rpc_bind_done, preceded_nil. reflexivity.
Qed.

(** X17: when the search answers with a list of records that have a path,
    a basename and a score, and every file is read, the outcome is one
    enriched record per result, in the order of the results, each with the
    path, basename and score of its result and the content read for it; the
    calls are the search and then one read per result, in that order. *)
Theorem extract_returns_every_record_in_order
  (tags : list string) (results contents : list pyobj) :
  Omnisearch.finds post tags results ->
  Forall Omnisearch.readable results ->
  Forall2 reads results contents ->
  Omnisearch.search_and_extract_content post tags
  = (Omnisearch.Done (Omnisearch.enrich_all results contents),
     Omnisearch.search_call tags :: map read_of results)
  /\ length (Omnisearch.enrich_all results contents) = length results.
Proof.
  intros Hfinds Hreadable Hreads.
  rewrite (extract_after_search _ _ Hfinds).
  pose proof (extract_prefix results contents [] [] Hreadable Hreads) as Hrun.
  rewrite app_nil_r in Hrun. rewrite Hrun, preceded_preceded.
  split.
  - unfold preceded. cbn. now rewrite app_nil_r.
  - unfold Omnisearch.enrich_all. rewrite length_map, length_combine.
    apply Forall2_length in Hreads. lia.
Qed.

(** X18: it is all or nothing.  When the read of one record's file is
    answered with a status other than 200, [search_and_extract_content]
    raises the [Exception] of that read: the records enriched before it are
    lost and the records after it are never read. *)
Theorem extract_is_all_or_nothing
  (tags : list string) (pre rest contents : list pyobj)
  (kvs : list (string * pyobj)) (path : pyobj) (response : response) :
  Omnisearch.finds post tags (pre ++ PyDict kvs :: rest) ->
  Forall Omnisearch.readable pre ->
  Forall2 reads pre contents ->
  dict_lookup "path" kvs = Some path ->
  post (Omnisearch.read_call path) = Returns response ->
  status_code response <> 200 ->
  Omnisearch.search_and_extract_content post tags
  = (Omnisearch.Failed
       (Omnisearch.Exception ("ファイル読み込みエラー: "
                                ++ str_int (status_code response)
                                ++ " - " ++ text response)),
     (Omnisearch.search_call tags :: map read_of pre
        ++ [Omnisearch.read_call path])%list).
Proof.
  intros Hfinds Hreadable Hreads Hpath Hpost Hstatus.
  rewrite (extract_after_search _ _ Hfinds),
    (extract_prefix pre contents _ [] Hreadable Hreads), preceded_preceded.
  cbn [Omnisearch.extract]. unfold Omnisearch.lift, Omnisearch.py_getitem.
  rewrite Hpath, rpc_bind_done, preceded_nil.
  unfold Omnisearch.get_file_content. rewrite client_post_eq.
  unfold Omnisearch.read_call in Hpost. rewrite Hpost, rpc_bind_done.
  apply Z.eqb_neq in Hstatus. rewrite Hstatus.
  reflexivity.
Qed.

(** X19: a record without a key raises [KeyError], and where it does
    follows the order of the loop body: without ["path"] nothing is read
    for that record; without ["basename"] its file has been read already
    when the error comes. *)
Theorem record_without_key_raises
  (tags : list string) (pre rest contents : list pyobj)
  (kvs : list (string * pyobj)) :
  Omnisearch.finds post tags (pre ++ PyDict kvs :: rest) ->
  Forall Omnisearch.readable pre ->
  Forall2 reads pre contents ->
  (dict_lookup "path" kvs = None ->
   Omnisearch.search_and_extract_content post tags
   = (Omnisearch.Failed (Omnisearch.KeyError "path"),
      Omnisearch.search_call tags :: map read_of pre))
  /\ (forall content,
        reads (PyDict kvs) content ->
        dict_lookup "path" kvs <> None ->
        dict_lookup "basename" kvs = None ->
        Omnisearch.search_and_extract_content post tags
        = (Omnisearch.Failed (Omnisearch.KeyError "basename"),
           (Omnisearch.search_call tags :: map read_of pre
              ++ [read_of (PyDict kvs)])%list)).
Proof.
  intros Hfinds Hreadable Hreads.
  rewrite (extract_after_search _ _ Hfinds),
    (extract_prefix pre contents _ [] Hreadable Hreads), preceded_preceded.
  split.
  - intros Hpath. cbn [Omnisearch.extract].
    unfold Omnisearch.lift, Omnisearch.py_getitem. rewrite Hpath.
    unfold preceded. cbn. now rewrite app_nil_r.
  - intros content Hread Hpath Hbase.
    pose proof (get_file_content_reads _ _ Hread) as Hget.
    cbn [Omnisearch.path_field] in Hget.
    destruct (dict_lookup "path" kvs) as [path|] eqn:Hsome; [|congruence].
    cbn [Omnisearch.extract]. unfold Omnisearch.lift, Omnisearch.py_getitem.
    rewrite Hsome, rpc_bind_done, preceded_nil, Hget, rpc_bind_done, Hbase.
    cbn [Omnisearch.path_field]. rewrite Hsome. reflexivity.
Qed.

End Extract.

(** ** More runs on the example vault *)

Section MoreInstances.

Import Examples.

Local Abbreviation search_req := (search_request cfg query dql).
Local Abbreviation fetch := (file_request cfg repr false).
Local Abbreviation refusing := (always (Raises (HTTPError "connection refused"))).
Local Abbreviation plain := (always (Returns (answer 200 "plain text"))).

(** Nothing listens: every adapter says so. *)
Lemma transport_failure_is_reported_witness :
  refusing (status_request cfg) = Raises (HTTPError "connection refused")
  /\ get_status cfg refusing dumps
     = reported (status_request cfg) "Failed to get status: connection refused"
         (error_dict "Failed to get status: connection refused")
  /\ update_file cfg refusing "A.md" "# Hello"
     = reported (update_request cfg "A.md" "# Hello")
         "Failed to update file 'A.md': connection refused"
         (PyStr "Failed to update file 'A.md': connection refused").
Proof.
  destruct (transport_failure_is_reported cfg refusing dumps "#prompts" "A.md" "# Hello"
              query dql false (HTTPError "connection refused"))
    as (Hstatus & _ & _ & _ & Hupdate & _).
  split; [reflexivity|]. split; [exact (Hstatus eq_refl) | exact (Hupdate eq_refl)].
Defined.

(** A 200 answer in plain text: an error where JSON is wanted, the text
    where it is not. *)
Lemma undecodable_body_fails_only_where_parsed_witness :
  (status_code (answer 200 "plain text") = 200
   /\ json (answer 200 "plain text") = Raises (JSONDecodeError "Expecting value"))
  /\ result (get_file cfg plain "A.md" true)
     = Returns (error_dict "Failed to retrieve file 'A.md': Expecting value")
  /\ succeeds_quietly (get_file cfg plain "A.md" false) (PyStr "plain text").
Proof.
  destruct (undecodable_body_fails_only_where_parsed cfg plain dumps "#prompts" "A.md"
              query dql (answer 200 "plain text") (JSONDecodeError "Expecting value")
              eq_refl eq_refl)
    as (_ & _ & _ & _ & Hstructured & _ & Hplain).
  split; [split; reflexivity|].
  split; [exact (Hstructured eq_refl) | exact (Hplain eq_refl)].
Defined.

(** [B.md] came back: it is in the search results, after [A.md], which was
    passed over. *)
Lemma returned_match_is_the_first_match_witness :
  result (look_for_hello a_fails_b_holds)
  = Returns (PyDict [("filename", b_md); ("content", PyStr "# Hello world")])
  /\ exists search_response pre item post,
       a_fails_b_holds search_req = Returns search_response
       /\ status_code search_response = 200
       /\ json search_response = Returns (PyList (pre ++ item :: post))
       /\ Forall (passed_over cfg a_fails_b_holds repr "Hello" false) pre
       /\ holds_keyword cfg a_fails_b_holds repr "Hello" false
            b_md (PyStr "# Hello world") item.
Proof.
  split; [reflexivity|].
  apply (returned_match_is_the_first_match cfg a_fails_b_holds repr query "Hello" dql
           false b_md (PyStr "# Hello world")).
  reflexivity.
Defined.

(** "No match" came back: all three candidates were passed over. *)
Lemma no_match_means_every_candidate_was_passed_over_witness :
  result (look_for_hello none_holds)
  = Returns (PyDict [("message", PyStr (no_match_message "Hello"))])
  /\ exists search_response items,
       none_holds search_req = Returns search_response
       /\ status_code search_response = 200
       /\ json search_response = Returns (PyList items)
       /\ items <> []
       /\ Forall (passed_over cfg none_holds repr "Hello" false) items.
Proof.
  split; [reflexivity|].
  apply (no_match_means_every_candidate_was_passed_over cfg none_holds repr query
           "Hello" dql false).
  reflexivity.
Defined.

(** The search answers [null]. *)
Lemma falsy_search_body_is_no_results_witness :
  truthy PyNone = false
  /\ look_for_hello (remote (Returns (answer_json 200 "null" PyNone)) [])
     = (Returns (PyDict [("message", PyStr no_results_message)]), [Sent search_req]).
Proof.
  split; [reflexivity|].
  apply (falsy_search_body_is_no_results cfg
           (remote (Returns (answer_json 200 "null" PyNone)) []) repr query "Hello" dql
           false (answer_json 200 "null" PyNone) PyNone); reflexivity.
Defined.

(** The search answers an object instead of a list. *)
Lemma search_body_not_a_list_is_an_error_witness :
  truthy (PyDict [("errorCode", PyInt 40400)]) = true
  /\ result (look_for_hello
               (remote (Returns (answer_json 200 "" (PyDict [("errorCode", PyInt 40400)])))
                       []))
     = Returns (error_dict ("search_and_find_matching_file エラー: "
                              ++ "'str' object has no attribute 'get'"))
  /\ requests (trace (look_for_hello
                        (remote (Returns (answer_json 200 ""
                                            (PyDict [("errorCode", PyInt 40400)])))
                                [])))
     = [search_req].
Proof.
  split; [reflexivity|].
  apply (search_body_not_a_list_is_an_error cfg
           (remote (Returns (answer_json 200 "" (PyDict [("errorCode", PyInt 40400)]))) [])
           repr query "Hello" dql false
           (answer_json 200 "" (PyDict [("errorCode", PyInt 40400)]))
           (PyDict [("errorCode", PyInt 40400)]));
    try reflexivity.
  intros items H. discriminate H.
Defined.

Local Abbreviation null_file :=
  (remote (found [candidate "A.md"; PyDict [("file", PyNone)]; candidate "B.md"])
          [("A.md", Returns (answer 404 "Not Found"));
           ("B.md", Returns (answer 200 "# Hello world"))]).

(** An item with ["file": null] between [A.md] and [B.md]: an error, and
    [B.md] is never fetched. *)
Lemma unreadable_item_ends_the_scan_witness :
  well_formed (PyDict [("file", PyNone)]) = false
  /\ (exists type,
        result (look_for_hello null_file)
        = Returns (error_dict ("search_and_find_matching_file エラー: '" ++ type
                                 ++ "' object has no attribute 'get'")))
  /\ requests (trace (look_for_hello null_file)) = [search_req; fetch a_md].
Proof.
  split; [reflexivity|].
  apply (unreadable_item_ends_the_scan cfg null_file repr query "Hello" dql false
           (answer_json 200 ""
              (PyList [candidate "A.md"; PyDict [("file", PyNone)]; candidate "B.md"]))
           [candidate "A.md"] [candidate "B.md"] (PyDict [("file", PyNone)]));
    try reflexivity.
  apply Forall_cons; [|apply Forall_nil].
  apply (fetch_refused _ _ _ _ _ _ a_md (answer 404 "Not Found"));
    [reflexivity | reflexivity | reflexivity | reflexivity | discriminate].
Defined.

(** The fetch of [A.md] times out: an error, and [B.md] is never fetched. *)
Lemma raising_fetch_ends_the_scan_witness :
  a_times_out_b_holds (fetch a_md) = Raises (HTTPError "timed out")
  /\ result (look_for_hello a_times_out_b_holds)
     = Returns (error_dict ("search_and_find_matching_file エラー: " ++ "timed out"))
  /\ requests (trace (look_for_hello a_times_out_b_holds)) = [search_req; fetch a_md].
Proof.
  split; [reflexivity|].
  apply (raising_fetch_ends_the_scan cfg a_times_out_b_holds repr query "Hello" dql false
           (answer_json 200 "" (PyList [candidate "A.md"; candidate "B.md"]))
           [] [candidate "B.md"] (candidate "A.md") a_md (HTTPError "timed out"));
    try reflexivity.
  - apply Forall_nil.
  - apply call_raises; reflexivity.
Defined.

(** Two candidates: at most three requests, and fewer warnings than that. *)
Lemma workflow_sends_at_most_one_fetch_per_candidate_witness :
  (length (requests (trace (look_for_hello a_fails_b_holds))) <= 1 + 2)%nat
  /\ (1 + length (logged WARNING (trace (look_for_hello a_fails_b_holds)))
      <= length (requests (trace (look_for_hello a_fails_b_holds))))%nat.
Proof.
  apply (workflow_sends_at_most_one_fetch_per_candidate cfg a_fails_b_holds repr query
           "Hello" dql false
           (answer_json 200 "" (PyList [candidate "A.md"; candidate "B.md"]))
           [candidate "A.md"; candidate "B.md"]); reflexivity.
Defined.

(** [B.md] came back from the workflow, and [get_file] reads the same. *)
Lemma returned_match_can_be_read_back_witness :
  result (look_for_hello a_fails_b_holds)
  = Returns (PyDict [("filename", PyStr "B.md"); ("content", PyStr "# Hello world")])
  /\ result (get_file cfg a_fails_b_holds "B.md" false) = Returns (PyStr "# Hello world").
Proof.
  split; [reflexivity|].
  apply (returned_match_can_be_read_back cfg a_fails_b_holds repr query "Hello" dql
           "B.md" false (PyStr "# Hello world")).
  reflexivity.
Defined.

(** The remote answers 500: [search] fails, and so does the workflow. *)
Lemma workflow_fails_where_search_fails_witness :
  result (search cfg (always (Returns (answer 500 ""))) dumps query dql)
  = Returns (error_list "Error: Received status code 500 from /search/ endpoint.")
  /\ (exists error_msg,
        result (look_for_hello (always (Returns (answer 500 ""))))
        = Returns (error_dict error_msg))
  /\ requests (trace (look_for_hello (always (Returns (answer 500 ""))))) = [search_req].
Proof.
  split; [reflexivity|].
  apply (workflow_fails_where_search_fails cfg (always (Returns (answer 500 ""))) repr
           dumps query "Hello" dql false
           "Error: Received status code 500 from /search/ endpoint.").
  reflexivity.
Defined.

End MoreInstances.

(** ** Runs of the Omnisearch client *)

Section RpcInstances.

Import RpcExamples.

Local Abbreviation url := Omnisearch.default_url.
Local Abbreviation read := (fun name => Omnisearch.read_call (PyStr name)).

(** Two tags: both are in the query. *)
Lemma search_by_tags_asks_for_every_tag_witness :
  Omnisearch.tags_query ["lang/react"; "prompts"] = "tag:lang/react tag:prompts"
  /\ py_in "tag:prompts" (Omnisearch.tags_query ["lang/react"; "prompts"]) = true
  /\ Omnisearch.tags_query [] = "".
Proof.
  destruct (search_by_tags_asks_for_every_tag both_there url ["lang/react"; "prompts"])
    as (_ & Hnamed & _).
  destruct (search_by_tags_asks_for_every_tag both_there url []) as (_ & _ & Hempty).
  split; [reflexivity|].
  split; [apply Hnamed; right; left; reflexivity | exact (Hempty eq_refl)].
Defined.

(** An answer [{}]: no results, and an empty file. *)
Lemma missing_result_reads_as_empty_witness :
  Omnisearch.ended
    (Omnisearch.search (fun _ => Returns (mkResponse 200 "{}" (Returns (PyDict [])) ""))
       url "hooks")
  = Omnisearch.Done (PyList [])
  /\ Omnisearch.ended
       (Omnisearch.get_file_content
          (fun _ => Returns (mkResponse 200 "{}" (Returns (PyDict [])) "")) url
          (PyStr "A.md"))
     = Omnisearch.Done (PyStr "").
Proof.
  destruct (missing_result_reads_as_empty
              (fun _ => Returns (mkResponse 200 "{}" (Returns (PyDict [])) "")) url
              "hooks" (PyStr "A.md") (mkResponse 200 "{}" (Returns (PyDict [])) "") []
              eq_refl eq_refl) as [Hsearch Hread].
  split; [exact (Hsearch eq_refl) | exact (Hread eq_refl)].
Defined.

(** The remote answers 404 to everything. *)
Lemma refused_call_is_raised_witness :
  status_code refused <> 200
  /\ Omnisearch.ended (Omnisearch.search (fun _ => Returns refused) url "hooks")
     = Omnisearch.Failed (Omnisearch.Exception "検索エラー: 404 - Not Found")
  /\ Omnisearch.ended (Omnisearch.refresh_index (fun _ => Returns refused) url)
     = Omnisearch.Failed (Omnisearch.Exception "インデックス更新エラー: 404 - Not Found")
  /\ Omnisearch.ended
       (Omnisearch.refresh_index (fun _ => Returns (served PyNone)) url)
     = Omnisearch.Done PyNone.
Proof.
  assert (Hstatus : status_code refused <> 200) by discriminate.
  destruct (refused_call_is_raised (fun _ => Returns refused) url "hooks" (PyStr "A.md")
              refused) as (Hsearch & _ & Hrefresh & _).
  destruct (refused_call_is_raised (fun _ => Returns (served PyNone)) url "hooks"
              (PyStr "A.md") (served PyNone)) as (_ & _ & _ & Hdone).
  split; [exact Hstatus|].
  split; [now rewrite (Hsearch Hstatus eq_refl)|].
  split; [now rewrite (Hrefresh Hstatus eq_refl) | now rewrite (Hdone eq_refl eq_refl)].
Defined.

Lemma a_and_b_readable : Forall Omnisearch.readable a_and_b.
Proof.
  repeat constructor; do 4 eexists; repeat split; reflexivity.
Defined.

Lemma record_a_readable : Forall Omnisearch.readable [record "A.md" "A" 10].
Proof.
  repeat constructor; do 4 eexists; repeat split; reflexivity.
Defined.

(** Both files are there: two enriched records, in order, three calls. *)
Lemma extract_returns_every_record_in_order_witness :
  Omnisearch.finds both_there react a_and_b
  /\ Omnisearch.search_and_extract_content both_there react
     = (Omnisearch.Done
          [PyDict [("path", PyStr "A.md"); ("basename", PyStr "A");
                   ("score", PyInt 10); ("content", PyStr "# Hello")];
           PyDict [("path", PyStr "B.md"); ("basename", PyStr "B");
                   ("score", PyInt 7); ("content", PyStr "# Goodbye")]],
        [Omnisearch.search_call react; read "A.md"; read "B.md"]).
Proof.
  assert (Hfinds : Omnisearch.finds both_there react a_and_b).
  { do 2 eexists. repeat split; reflexivity. }
  split; [exact Hfinds|].
  apply (extract_returns_every_record_in_order both_there react a_and_b
           [PyStr "# Hello"; PyStr "# Goodbye"] Hfinds a_and_b_readable).
  repeat constructor; do 2 eexists; repeat split; reflexivity.
Defined.

(** [B.md] is missing: nothing comes back, not even [A.md]. *)
Lemma extract_is_all_or_nothing_witness :
  b_missing (read "B.md") = Returns refused
  /\ Omnisearch.search_and_extract_content b_missing react
     = (Omnisearch.Failed
          (Omnisearch.Exception ("ファイル読み込みエラー: " ++ str_int 404
                                   ++ " - " ++ "Not Found")),
        [Omnisearch.search_call react; read "A.md"; read "B.md"]).
Proof.
  split; [reflexivity|].
  apply (extract_is_all_or_nothing b_missing react [record "A.md" "A" 10] []
           [PyStr "# Hello"]
           [("path", PyStr "B.md"); ("basename", PyStr "B"); ("score", PyInt 7)]
           (PyStr "B.md") refused).
  - do 2 eexists. repeat split; reflexivity.
  - exact record_a_readable.
  - repeat constructor; do 2 eexists; repeat split; reflexivity.
  - reflexivity.
  - reflexivity.
  - discriminate.
Defined.

(** A record without a path, and one without a basename. *)
Lemma record_without_key_raises_witness :
  Omnisearch.search_and_extract_content no_path react
  = (Omnisearch.Failed (Omnisearch.KeyError "path"),
     [Omnisearch.search_call react; read "A.md"])
  /\ Omnisearch.search_and_extract_content no_basename react
     = (Omnisearch.Failed (Omnisearch.KeyError "basename"),
        [Omnisearch.search_call react; read "A.md"; read "B.md"]).
Proof.
  assert (Hread_a : Forall2 (Omnisearch.reads no_path) [record "A.md" "A" 10]
                      [PyStr "# Hello"]).
  { repeat constructor; do 2 eexists; repeat split; reflexivity. }
  assert (Hread_a' : Forall2 (Omnisearch.reads no_basename) [record "A.md" "A" 10]
                       [PyStr "# Hello"]).
  { repeat constructor; do 2 eexists; repeat split; reflexivity. }
  destruct (record_without_key_raises no_path react [record "A.md" "A" 10] []
              [PyStr "# Hello"] [("basename", PyStr "B")]
              ltac:(do 2 eexists; repeat split; reflexivity)
              record_a_readable Hread_a) as [Hpath _].
  destruct (record_without_key_raises no_basename react [record "A.md" "A" 10] []
              [PyStr "# Hello"] [("path", PyStr "B.md")]
              ltac:(do 2 eexists; repeat split; reflexivity)
              record_a_readable Hread_a') as [_ Hbase].
  split; [exact (Hpath eq_refl)|].
  apply (Hbase (PyStr "# Goodbye")).
  - do 2 eexists. repeat split; reflexivity.
  - discriminate.
  - reflexivity.
Defined.

End RpcInstances.
